(** * Verification of the data-cleaning routines of the portfolio projects

    The development embeds, as Rocq functions, the routines of

      - projects/cost-of-living/src/02_data_cleaning.py
          ([parse_ons_date], [clean_ons_timeseries], [classify_inflation],
           [process_ons_files], [merge_cpi_data], [create_master_cpi_table]),
      - projects/cost-of-living/src/01_download_data.py
          ([download_file], [download_ons_datasets], [process_ons_downloads],
           [main]),
      - projects/uk-housing-market/app.py
          (the sidebar widgets, [filtered_df], [display_df] and the CSV
           download),
      - projects/uk-housing-market/src/02_data_cleaning.py ([clean_data]),

    and proves the properties the specification states about them.

    Python [str] values are modelled as [string], one [ascii] per character:
    the model covers ASCII text, which is what the ONS and Land Registry
    exports contain.  Calls into pandas and requests are either parameters of
    a Section ([pd.to_datetime], [DataFrame.to_csv], [pd.read_csv]) or follow
    the library's documented contract ([Response.raise_for_status]). *)

From Stdlib Require Import Ascii String QArith Qcanon.
From stdpp Require Import base decidable option list strings gmap pretty
  numbers sorting.

Local Open Scope string_scope.

(* ===================================================================== *)
(** * Part I: definitions *)
(* ===================================================================== *)

(** ** The methods of Python's [str] used by the scripts *)

Module PyStr.

(** [str.isspace] on an ASCII character: TAB, LF, VT, FF, CR, the four
    separators FS, GS, RS, US, and the space. *)
Definition isspace (c : ascii) : bool :=
  let n := nat_of_ascii c in
  (9 <=? n)%nat && (n <=? 13)%nat || (28 <=? n)%nat && (n <=? 32)%nat.

Definition islower (c : ascii) : bool :=
  let n := nat_of_ascii c in (97 <=? n)%nat && (n <=? 122)%nat.

Definition isupper (c : ascii) : bool :=
  let n := nat_of_ascii c in (65 <=? n)%nat && (n <=? 90)%nat.

Definition isdigit (c : ascii) : bool :=
  let n := nat_of_ascii c in (48 <=? n)%nat && (n <=? 57)%nat.

Definition upper_char (c : ascii) : ascii :=
  if islower c then ascii_of_nat (nat_of_ascii c - 32) else c.

(** [s.upper()] *)
Fixpoint upper (s : string) : string :=
  match s with
  | EmptyString => EmptyString
  | String c s' => String (upper_char c) (upper s')
  end.

(** [all(p(c) for c in s)] *)
Fixpoint all (p : ascii → bool) (s : string) : bool :=
  match s with
  | EmptyString => true
  | String c s' => p c && all p s'
  end.

Definition nonspace (c : ascii) : bool := negb (isspace c).

(** [s.lstrip()], [s.rstrip()] and [s.strip()] without argument. *)
Fixpoint lstrip (s : string) : string :=
  match s with
  | EmptyString => EmptyString
  | String c s' => if isspace c then lstrip s' else s
  end.

Fixpoint rstrip (s : string) : string :=
  match s with
  | EmptyString => EmptyString
  | String c s' =>
      match rstrip s' with
      | EmptyString => if isspace c then EmptyString else String c EmptyString
      | r => String c r
      end
  end.

Definition strip (s : string) : string := rstrip (lstrip s).

(** [s.split()] without argument: the maximal runs of non-space characters,
    in order; [tok] is the run being read. *)
Fixpoint split_go (tok : string) (s : string) : list string :=
  match s with
  | EmptyString => if decide (tok = "") then [] else [tok]
  | String c s' =>
      if isspace c
      then (if decide (tok = "") then split_go "" s' else tok :: split_go "" s')
      else split_go (tok +:+ String c "") s'
  end.

Definition split (s : string) : list string := split_go "" s.

(** [s.zfill(width)]: pad with zeros on the left (no sign handling is needed
    for the unsigned numerals printed here). *)
Fixpoint zeros (n : nat) : string :=
  match n with
  | O => ""
  | S n' => String "0" (zeros n')
  end.

Definition zfill (width : nat) (s : string) : string :=
  zeros (width - String.length s) +:+ s.

(** A token: a non-empty string without white space, which is what
    [split] yields. *)
Definition token (s : string) : Prop := s ≠ "" ∧ all nonspace s = true.

(** A string that does not start with white space. *)
Definition no_leading_space (s : string) : Prop :=
  match s with
  | EmptyString => True
  | String c _ => isspace c = false
  end.

End PyStr.

(** ** Python results: a value or a raised exception *)

Module Py.

(** The subclasses of [Exception] the scripts can meet.  Asynchronous
    [BaseException]s (KeyboardInterrupt, SystemExit) are outside the model. *)
Inductive exn : Type :=
  | ValueError
  | ParserError
  | OutOfBoundsDatetime
  | ConnectionError
  | Timeout
  | TooManyRedirects
  | HTTPError (status : Z)
  | OSError.

Inductive result (A : Type) : Type :=
  | Returns (a : A)
  | Raises (e : exn).
Global Arguments Returns {A} a.
Global Arguments Raises {A} e.

Global Instance result_ret : MRet result := λ A a, Returns a.
Global Instance result_bind : MBind result := λ A B f m,
  match m with
  | Returns a => f a
  | Raises e => Raises e
  end.

(** [try: body / except: handler] around a pure computation. *)
Definition try_except {A} (body : result A) (handler : exn → A) : A :=
  match body with
  | Returns a => a
  | Raises e => handler e
  end.

End Py.

(** ** The part of pandas the scripts rely on *)

Module Pandas.

(** The calendar fields of a [Timestamp]; the time of day is not printed by
    the format ['%Y-%m-%d'] and is left out. *)
Record date : Type := Date { year : N; month : N; day : N }.

(** What [pd.to_datetime] returns for a scalar: a [Timestamp], or [NaT] for
    an empty or null-like cell. *)
Inductive datetime : Type :=
  | Timestamp (d : date)
  | NaT.

Global Instance date_eq_dec : EqDecision date.
Proof. solve_decision. Defined.
Global Instance datetime_eq_dec : EqDecision datetime.
Proof. solve_decision. Defined.

(** [Timestamp.strftime('%Y-%m-%d')] *)
Definition strftime_Ymd (d : date) : string :=
  PyStr.zfill 4 (pretty (year d)) +:+ "-" +:+
  PyStr.zfill 2 (pretty (month d)) +:+ "-" +:+
  PyStr.zfill 2 (pretty (day d)).

(** [NaT.strftime] raises ValueError. *)
Definition strftime (t : datetime) : Py.result string :=
  match t with
  | Timestamp d => Py.Returns (strftime_Ymd d)
  | NaT => Py.Raises Py.ValueError
  end.

(** [Series.dropna] on a column of optional cells, keeping the cell's value. *)
Definition dropna {A B} (col : A → option B) (df : list A) : list (A * B) :=
  omap (λ r, (λ v, (r, v)) <$> col r) df.

End Pandas.

(** ** Cost of living: the ONS date normalizer (02_data_cleaning.py) *)

Module CostOfLiving.

(** [month_map], lines 77-82: the entries of the dict literal, and the
    dict. *)
Definition month_table : list (string * string) :=
  [ ("JAN", "01"); ("FEB", "02"); ("MAR", "03"); ("APR", "04");
    ("MAY", "05"); ("JUN", "06"); ("JUL", "07"); ("AUG", "08");
    ("SEP", "09"); ("OCT", "10"); ("NOV", "11"); ("DEC", "12");
    ("Q1", "03"); ("Q2", "06"); ("Q3", "09"); ("Q4", "12") ].

Definition month_map : gmap string string := list_to_map month_table.

(** Lines 72-85: the two-token lookup.  [Some r] when the function returns
    [r] from inside the [if]; [None] when control falls through to the
    generic parser. *)
Definition lookup_path (date_str : string) : option string :=
  if decide (length (PyStr.split date_str) = 2) then
    match PyStr.split date_str with
    | [year; part1] =>
        let month_str := PyStr.upper part1 in
        match month_map !! month_str with
        | Some mm => Some (year +:+ "-" +:+ mm +:+ "-01")
        | None => None
        end
    | _ => None
    end
  else None.

Section ParseOnsDate.

(** [pd.to_datetime] on a scalar string: a library call, taken as a
    parameter.  It returns a [Timestamp] or [NaT], or raises. *)
Variable to_datetime : string → Py.result Pandas.datetime.

(** Line 88: [pd.to_datetime(date_str).strftime('%Y-%m-%d')]. *)
Definition fallback_path (date_str : string) : Py.result string :=
  t ← to_datetime date_str; Pandas.strftime t.

(** The body of the [try] block, lines 70-88. *)
Definition parse_ons_date_try (date_str : string) : Py.result (option string) :=
  match lookup_path date_str with
  | Some r => Py.Returns (Some r)
  | None => r ← fallback_path date_str; Py.Returns (Some r)
  end.

(** [parse_ons_date], lines 68-90.  [str(date_str)] is the identity on a
    string; the bare [except] turns every exception into [None]. *)
Definition parse_ons_date (date_str : string) : option string :=
  let date_str := PyStr.strip date_str in
  Py.try_except (parse_ons_date_try date_str) (λ _, None).

(** A row of the frame after the columns are renamed (line 61). *)
Record ons_row : Type := OnsRow { ons_date : string; ons_value : string }.

(** Line 64: [df['date'] = df['date'].astype(str).str.strip()]. *)
Definition strip_date (r : ons_row) : ons_row :=
  {| ons_date := PyStr.strip (ons_date r); ons_value := ons_value r |}.

(** The date stage of [clean_ons_timeseries], lines 64 and 92-93: strip the
    date column, apply [parse_ons_date], drop the rows whose [date_clean]
    is null.  Each kept row is paired with its [date_clean]. *)
Definition clean_ons_timeseries_dates (df : list ons_row) : list (ons_row * string) :=
  Pandas.dropna (λ r, parse_ons_date (ons_date r)) (strip_date <$> df).

End ParseOnsDate.

End CostOfLiving.

(** ** A reference instance of the date parser

    [IsoDates.to_datetime] reads the ISO form YYYY-MM-DD (and the empty
    cell) the way [pd.to_datetime] does and raises on everything else.  It
    stands in for the library where a concrete parser is needed to run the
    model; the theorems are stated for an arbitrary parser. *)

Module IsoDates.

Definition digit_val (c : ascii) : option N :=
  if PyStr.isdigit c then Some (N_of_ascii c - 48)%N else None.

Definition is_leap (y : N) : bool :=
  ((y mod 4 =? 0) && (negb (y mod 100 =? 0) || (y mod 400 =? 0)))%N.

Definition days_in_month (y m : N) : N :=
  (if m =? 2 then (if is_leap y then 29 else 28)
   else if (m =? 4) || (m =? 6) || (m =? 9) || (m =? 11) then 30
   else 31)%N.

(** A calendar date strictly inside the range of a [Timestamp]
    (1677-09-21 to 2262-04-11). *)
Definition valid_date (d : Pandas.date) : bool :=
  ((1677 <? Pandas.year d) && (Pandas.year d <? 2262) &&
   (1 <=? Pandas.month d) && (Pandas.month d <=? 12) &&
   (1 <=? Pandas.day d) &&
   (Pandas.day d <=? days_in_month (Pandas.year d) (Pandas.month d)))%N.

Definition number2 (a b : ascii) : option N :=
  x ← digit_val a; y ← digit_val b; Some (10 * x + y)%N.

Definition number4 (a b c d : ascii) : option N :=
  x ← number2 a b; y ← number2 c d; Some (100 * x + y)%N.

Definition fields (s : string) : option Pandas.date :=
  match s with
  | String y1 (String y2 (String y3 (String y4 (String "-"
      (String m1 (String m2 (String "-" (String d1 (String d2 ""))))))))) =>
      y ← number4 y1 y2 y3 y4; m ← number2 m1 m2; d ← number2 d1 d2;
      Some (Pandas.Date y m d)
  | _ => None
  end.

Definition to_datetime (s : string) : Py.result Pandas.datetime :=
  if decide (s = "") then Py.Returns Pandas.NaT
  else match fields s with
       | Some d =>
           if valid_date d then Py.Returns (Pandas.Timestamp d)
           else Py.Raises Py.OutOfBoundsDatetime
       | None => Py.Raises Py.ParserError
       end.

(** The same parser under [errors='coerce']: what does not parse is [NaT].
    It reads each cell on its own. *)
Definition to_datetime_coerce (column : list (option string)) (s : string) :
    Pandas.datetime :=
  match to_datetime s with
  | Py.Returns t => t
  | Py.Raises _ => Pandas.NaT
  end.

End IsoDates.

(** ** Cost of living: the download script (01_download_data.py) *)

Module Download.

(** A [requests.Response]: the final status and the body. *)
Record response : Type := Response { status_code : Z; content : string }.

(** The lines the script prints.  A [Banner] is a fixed heading, with the
    rule of dashes or equals signs printed next to it. *)
Inductive line : Type :=
  | Banner (text : string)
  | Downloading (description : string)
  | Downloaded (size : nat)
  | DownloadError (e : Py.exn)
  | DownloadedCount (ok total : nat)
  | Processed (filename : string) (rows : nat)
  | CouldNotProcess (filename : string) (e : Py.exn)
  | NoOnsFiles
  | Listing (entries : list (string * nat)).

(** What the script can change: the files on disk and its standard output. *)
Record world : Type := World { files : gmap string string; stdout : list line }.

(** A statement sequence: it runs in a world and returns or raises. *)
Definition M (A : Type) : Type := world → Py.result A * world.

Definition ret {A} (a : A) : M A := λ w, (Py.Returns a, w).

Definition raise {A} (e : Py.exn) : M A := λ w, (Py.Raises e, w).

Definition bind {A B} (m : M A) (k : A → M B) : M B := λ w,
  match m w with
  | (Py.Returns a, w') => k a w'
  | (Py.Raises e, w') => (Py.Raises e, w')
  end.

Definition lift {A} (r : Py.result A) : M A := λ w, (r, w).

(** [try: body / except Exception as e: handler e]; what the body did before
    it raised stays done. *)
Definition try_except {A} (body : M A) (handler : Py.exn → M A) : M A := λ w,
  match body w with
  | (Py.Returns a, w') => (Py.Returns a, w')
  | (Py.Raises e, w') => handler e w'
  end.

Definition print (l : line) : M unit := λ w,
  (Py.Returns tt, {| files := files w; stdout := stdout w ++ [l] |}).

Definition path_exists (path : string) : M bool := λ w,
  (Py.Returns (bool_decide (is_Some (files w !! path))), w).

Definition read_file (path : string) : M string := λ w,
  match files w !! path with
  | Some c => (Py.Returns c, w)
  | None => (Py.Raises Py.OSError, w)
  end.

(** [Response.raise_for_status], as requests documents it: HTTPError for a
    client error (4xx) or a server error (5xx), nothing otherwise. *)
Definition raise_for_status (r : response) : M unit :=
  if decide (400 ≤ status_code r < 600)%Z
  then raise (Py.HTTPError (status_code r))
  else ret tt.

Definition raw_path (filename : string) : string := "../data/raw/" +:+ filename.

(** The list [datasets] of [download_ons_datasets]: url, filename,
    description. *)
Definition datasets : list (string * string * string) :=
  [ ("https://www.ons.gov.uk/generator?format=csv&uri=/economy/inflationandpriceindices/timeseries/d7g7/mm23",
     "cpi_annual_rate.csv", "CPI Annual Rate");
    ("https://www.ons.gov.uk/generator?format=csv&uri=/economy/inflationandpriceindices/timeseries/l55o/mm23",
     "cpih_annual_rate.csv", "CPIH Annual Rate");
    ("https://www.ons.gov.uk/generator?format=csv&uri=/economy/inflationandpriceindices/timeseries/d7g8/mm23",
     "cpi_monthly_rate.csv", "CPI Monthly Rate");
    ("https://www.ons.gov.uk/generator?format=csv&uri=/economy/inflationandpriceindices/timeseries/l59c/mm23",
     "food_inflation.csv", "Food & Beverages Inflation");
    ("https://www.ons.gov.uk/generator?format=csv&uri=/economy/inflationandpriceindices/timeseries/l59h/mm23",
     "housing_energy_inflation.csv", "Housing & Energy Inflation");
    ("https://www.ons.gov.uk/generator?format=csv&uri=/economy/inflationandpriceindices/timeseries/l59m/mm23",
     "transport_inflation.csv", "Transport Inflation");
    ("https://www.ons.gov.uk/generator?format=csv&uri=/employmentandlabourmarket/peopleinwork/earningsandworkinghours/timeseries/kab9/lms",
     "avg_weekly_earnings.csv", "Average Weekly Earnings") ].

(** The list [ons_files] of [process_ons_downloads]. *)
Definition ons_files : list string :=
  [ "cpi_annual_rate.csv"; "cpih_annual_rate.csv"; "food_inflation.csv";
    "housing_energy_inflation.csv"; "transport_inflation.csv" ].

(** What the body of a [with open(path, 'wb') as f] block comes to once the
    file is open: [f.write] and the closing of the file complete, or one of
    them raises and the file holds what reached the disk until then. *)
Inductive write_outcome : Type :=
  | Written
  | WriteFailed (left_on_disk : string).

Section Script.

(** The outside world, as the script sees it:
    - [requests_get url]: what [requests.get(url, headers=..., timeout=60)]
      does, a response or an exception (connection error, timeout, ...);
    - [open_wb path]: whether [open(path, 'wb')] succeeds; when it does the
      file exists and is empty from then on, the earlier content is gone;
    - [f_write path data]: what writing [data] to the file opened at [path]
      and closing it comes to;
    - [read_csv c]: the number of rows [pd.read_csv(..., skiprows=7)] finds
      in a file of content [c], or the exception it raises;
    - [create_comprehensive_sample_data]: the generator of the sample
      files, whose body (random series written to CSV) is not modelled. *)
Variable requests_get : string → Py.result response.
Variable open_wb : string → bool.
Variable f_write : string → string → write_outcome.
Variable read_csv : string → Py.result nat.
Variable create_comprehensive_sample_data : M unit.

(** [with open(filepath, 'wb') as f: f.write(data)]: when [open] raises the
    file is untouched; when the write raises, the file is left with what
    was written of it. *)
Definition write_file (path data : string) : M unit := λ w,
  if open_wb path then
    match f_write path data with
    | Written =>
        (Py.Returns tt,
         {| files := <[path := data]> (files w); stdout := stdout w |})
    | WriteFailed left_on_disk =>
        (Py.Raises Py.OSError,
         {| files := <[path := left_on_disk]> (files w); stdout := stdout w |})
    end
  else (Py.Raises Py.OSError, w).

(** The [try] block of [download_file], lines 29-44. *)
Definition download_file_try (url filename description : string) : M bool :=
  bind (print (Downloading description)) (λ _,
  bind (lift (requests_get url)) (λ response,
  bind (raise_for_status response) (λ _,
  let filepath := raw_path filename in
  bind (write_file filepath (content response)) (λ _,
  bind (print (Downloaded (String.length (content response)))) (λ _,
  ret true))))).

(** [download_file], lines 26-48. *)
Definition download_file (url filename description : string) : M bool :=
  try_except (download_file_try url filename description)
    (λ e, bind (print (DownloadError e)) (λ _, ret false)).

(** The loop of [download_ons_datasets]. *)
Fixpoint download_loop (ds : list (string * string * string))
    (success_count : nat) : M nat :=
  match ds with
  | [] => ret success_count
  | (url, filename, description) :: ds' =>
      bind (download_file url filename description) (λ ok,
      download_loop ds' (if ok then S success_count else success_count))
  end.

Definition download_ons_datasets : M bool :=
  bind (print (Banner "Downloading ONS Datasets...")) (λ _,
  bind (download_loop datasets 0) (λ success_count,
  bind (print (DownloadedCount success_count (length datasets))) (λ _,
  ret (bool_decide (0 < success_count))))).

(** The loop of [process_ons_downloads]. *)
Fixpoint process_loop (fs : list string) (files_processed : nat) : M nat :=
  match fs with
  | [] => ret files_processed
  | filename :: fs' =>
      let filepath := raw_path filename in
      bind (path_exists filepath) (λ there,
      bind (if there : bool then
              try_except
                (bind (read_file filepath) (λ c,
                 bind (lift (read_csv c)) (λ rows,
                 if bool_decide (0 < rows)
                 then bind (print (Processed filename rows)) (λ _,
                      ret (S files_processed))
                 else ret files_processed)))
                (λ e, bind (print (CouldNotProcess filename e)) (λ _,
                      ret files_processed))
            else ret files_processed) (λ files_processed',
      process_loop fs' files_processed'))
  end.

Definition process_ons_downloads : M nat :=
  bind (print (Banner "Processing Downloaded Files...")) (λ _,
  bind (process_loop ons_files 0) (λ files_processed,
  bind (if bool_decide (files_processed = 0) then print NoOnsFiles else ret tt) (λ _,
  ret files_processed))).

(** The closing summary of [main], lines 369-378: the files of data/raw with
    their sizes.  The time stamp and the hint printed last are left out. *)
Definition print_summary : M unit := λ w,
  print (Listing (map_to_list (String.length <$> files w))) w.

(** [main], lines 352-381. *)
Definition main : M unit :=
  bind download_ons_datasets (λ ons_success,
  bind process_ons_downloads (λ _,
  bind create_comprehensive_sample_data (λ _,
  bind (print (Banner "DOWNLOAD COMPLETE")) (λ _,
  print_summary)))).

End Script.

End Download.

(** ** Housing market: the dashboard filters (app.py) *)

Module Dashboard.

(** A row of the table [load_data] returns (the columns the dashboard
    reads). *)
Record row : Type := Row {
  date_of_transfer : Pandas.date;
  district : string;
  postcode : string;
  property_type_name : option string;
  price : Z;
  year : N
}.

Global Instance row_eq_dec : EqDecision row.
Proof. solve_decision. Defined.

(** [Series.isin(values)] on one cell. *)
Definition isin {A} `{EqDecision A} (x : A) (values : list A) : bool :=
  bool_decide (x ∈ values).

(** The settings of the four sidebar widgets. *)
Record selection : Type := Selection {
  selected_years : list N;
  selected_boroughs : list string;
  selected_types : list (option string);
  price_range : Z * Z
}.

(** The boolean mask of lines 147-153, on one row. *)
Definition mask (sel : selection) (r : row) : bool :=
  isin (year r) (selected_years sel) &&
  isin (district r) (selected_boroughs sel) &&
  isin (property_type_name r) (selected_types sel) &&
  (fst (price_range sel) <=? price r)%Z &&
  (price r <=? snd (price_range sel))%Z.

(** [filtered_df = df[mask]] *)
Definition filtered_df (df : list row) (sel : selection) : list row :=
  filter (λ r, mask sel r) df.

Section Page.

(** [DataFrame.to_csv(index=False)], a library call. *)
Variable to_csv : list row → string.

(** Lines 159-352, between the filter and the download: the header, the
    five metrics, the charts that plotly draws from the filtered table
    ([px.bar] at lines 213, 287 and 309, [px.line] at line 243, [px.pie] at
    line 269) and the table of transactions.  They are library calls on the
    filtered table: they return, or one of them raises.  No statement of the
    script catches an exception, so a raise ends the run of the script
    there. *)
Variable render_sections : list row → Py.result unit.

(** Lines 147-364, the run of the script from the filter on: the payload
    handed to [st.download_button] at line 358, reached when the sections
    before it have returned. *)
Definition download_data (df : list row) (sel : selection) : Py.result string :=
  render_sections (filtered_df df sel) ≫= λ _,
  Py.Returns (to_csv (filtered_df df sel)).

End Page.

End Dashboard.

(** A reference instance of the page sections, for the examples: the first
    chart, [px.bar] at line 213, is given the means per district of the
    filtered table and raises when the table has no row; on a table with
    rows the sections are taken to complete.  The class of the exception
    plays no role. *)
Module Plotly.

Definition render_sections (filtered : list Dashboard.row) : Py.result unit :=
  match filtered with
  | [] => Py.Raises Py.ValueError
  | _ :: _ => Py.Returns tt
  end.

End Plotly.

(** ** Housing market: the cleaning script (02_data_cleaning.py) *)

Module Housing.

Definition PROPERTY_TYPES : gmap string string :=
  list_to_map
    [ ("D", "Detached"); ("S", "Semi-Detached"); ("T", "Terraced");
      ("F", "Flat/Maisonette"); ("O", "Other") ].

Definition LONDON_REGIONS : gmap string string :=
  list_to_map
    [ ("CITY OF LONDON", "Central"); ("WESTMINSTER", "Central");
      ("CAMDEN", "Central"); ("ISLINGTON", "Central");
      ("KENSINGTON AND CHELSEA", "Central"); ("LAMBETH", "Central");
      ("SOUTHWARK", "Central"); ("TOWER HAMLETS", "Central");
      ("BARNET", "North"); ("ENFIELD", "North"); ("HARINGEY", "North");
      ("WALTHAM FOREST", "North");
      ("BROMLEY", "South"); ("CROYDON", "South"); ("LEWISHAM", "South");
      ("MERTON", "South"); ("SUTTON", "South"); ("GREENWICH", "South");
      ("BARKING AND DAGENHAM", "East"); ("BEXLEY", "East");
      ("HAVERING", "East"); ("NEWHAM", "East"); ("REDBRIDGE", "East");
      ("HACKNEY", "East");
      ("BRENT", "West"); ("EALING", "West");
      ("HAMMERSMITH AND FULHAM", "West"); ("HARROW", "West");
      ("HILLINGDON", "West"); ("HOUNSLOW", "West");
      ("RICHMOND UPON THAMES", "West"); ("KINGSTON UPON THAMES", "West");
      ("WANDSWORTH", "West") ].

(** A row as [load_london_data] reads it: a cell is [None] when it is null
    (NaN).  [other] holds the columns [clean_data] does not touch. *)
Record raw_row : Type := RawRow {
  raw_transaction_id : option string;
  raw_price : option Z;
  raw_date_of_transfer : option string;
  raw_postcode : option string;
  raw_property_type : option string;
  raw_district : option string;
  raw_other : list (option string)
}.

(** A row of the frame [clean_data] returns. *)
Record row : Type := Row {
  transaction_id : option string;
  price : option Z;
  date_of_transfer : Pandas.datetime;
  postcode : option string;
  property_type : option string;
  district : option string;
  other : list (option string);
  year : option N;
  month : option N;
  quarter : option N;
  year_month : option string;
  property_type_name : option string;
  region : option string;
  postcode_district : option string;
  price_band : option string
}.

(** [df.drop_duplicates(subset=[key])]: the first row of each key is kept;
    [seen] holds the keys met so far. *)
Fixpoint drop_duplicates_go {A K} `{EqDecision K} (key : A → K)
    (seen : list K) (df : list A) : list A :=
  match df with
  | [] => []
  | r :: df' =>
      if bool_decide (key r ∈ seen) then drop_duplicates_go key seen df'
      else r :: drop_duplicates_go key (key r :: seen) df'
  end.

Definition drop_duplicates {A K} `{EqDecision K} (key : A → K) (df : list A) : list A :=
  drop_duplicates_go key [] df.

(** The longest prefix of at most [n] characters satisfying [p], and the
    rest. *)
Fixpoint take_upto (n : nat) (p : ascii → bool) (s : string) : string * string :=
  match n, s with
  | S n', String c s' =>
      if p c then let '(t, r) := take_upto n' p s' in (String c t, r)
      else ("", s)
  | _, _ => ("", s)
  end.

(** [str.extract(r'^([A-Z]{1,2}\d{1,2}[A-Z]?)')] on one cell: one or two
    capitals, one or two digits, an optional capital.  Giving back a
    capital cannot help the digits match, so the greedy reading decides. *)
Definition extract_postcode_district (s : string) : option string :=
  let '(letters, r1) := take_upto 2 PyStr.isupper s in
  if decide (letters = "") then None else
  let '(digits, r2) := take_upto 2 PyStr.isdigit r1 in
  if decide (digits = "") then None else
  let '(suffix, _) := take_upto 1 PyStr.isupper r2 in
  Some (letters +:+ digits +:+ suffix).

(** [pd.cut] with the bins and labels of lines 141-146 (right-closed). *)
Definition cut_price_band (p : Z) : option string :=
  if (p <=? 0)%Z then None
  else if (p <=? 250000)%Z then Some "Under £250k"
  else if (p <=? 500000)%Z then Some "£250k-£500k"
  else if (p <=? 750000)%Z then Some "£500k-£750k"
  else if (p <=? 1000000)%Z then Some "£750k-£1M"
  else if (p <=? 2000000)%Z then Some "£1M-£2M"
  else Some "Over £2M".

Definition date_of (t : Pandas.datetime) : option Pandas.date :=
  match t with
  | Pandas.Timestamp d => Some d
  | Pandas.NaT => None
  end.

Section CleanData.

(** [pd.to_datetime(column, errors='coerce')], a library call, read cell by
    cell: [to_datetime_coerce column s] is what the cell [s] of [column]
    becomes, a [Timestamp], or [NaT] when it does not parse.  The column is
    an argument because pandas may infer the format from its first cells. *)
Variable to_datetime_coerce : list (option string) → string → Pandas.datetime.

(** Step 2 (line 109) on one row of a frame whose date column is [column];
    the columns of steps 6-10 are not yet filled. *)
Definition convert_date (column : list (option string)) (r : raw_row) : row :=
  {| transaction_id := raw_transaction_id r;
     price := raw_price r;
     date_of_transfer :=
       match raw_date_of_transfer r with
       | Some s => to_datetime_coerce column s
       | None => Pandas.NaT
       end;
     postcode := raw_postcode r;
     property_type := raw_property_type r;
     district := raw_district r;
     other := raw_other r;
     year := None; month := None; quarter := None; year_month := None;
     property_type_name := None; region := None;
     postcode_district := None; price_band := None |}.

(** Step 3 (lines 112-114): [dropna(subset=essential_cols)] keeps a row
    when none of the four cells is null. *)
Definition has_essentials (r : row) : bool :=
  bool_decide (is_Some (price r)) &&
  bool_decide (date_of_transfer r ≠ Pandas.NaT) &&
  bool_decide (is_Some (postcode r)) &&
  bool_decide (is_Some (district r)).

(** Step 4 (line 119): the price mask; a comparison with a null is false. *)
Definition price_in_range (r : row) : bool :=
  match price r with
  | Some p => (10000 <=? p)%Z && (p <=? 50000000)%Z
  | None => false
  end.

(** Steps 5-10 (lines 123-146) on one row. *)
Definition derive (r : row) : row :=
  let district' := PyStr.strip <$> (PyStr.upper <$> district r) in
  let d := date_of (date_of_transfer r) in
  {| transaction_id := transaction_id r;
     price := price r;
     date_of_transfer := date_of_transfer r;
     postcode := postcode r;
     property_type := property_type r;
     district := district';
     other := other r;
     year := Pandas.year <$> d;
     month := Pandas.month <$> d;
     quarter := (λ x, (Pandas.month x - 1) `div` 3 + 1)%N <$> d;
     year_month :=
       (λ x, PyStr.zfill 4 (pretty (Pandas.year x)) +:+ "-" +:+
             PyStr.zfill 2 (pretty (Pandas.month x))) <$> d;
     property_type_name := property_type r ≫= (PROPERTY_TYPES !!.);
     region := district' ≫= (LONDON_REGIONS !!.);
     postcode_district := postcode r ≫= extract_postcode_district;
     price_band := price r ≫= cut_price_band |}.

(** [clean_data], lines 98-150. *)
Definition clean_data (df : list raw_row) : list row :=
  let df := drop_duplicates raw_transaction_id df in
  let df := convert_date (raw_date_of_transfer <$> df) <$> df in
  let df := filter (λ r, has_essentials r) df in
  let df := filter (λ r, price_in_range r) df in
  derive <$> df.

End CleanData.

End Housing.

(** ** Cost of living: the rest of [clean_ons_timeseries] (02_data_cleaning.py) *)

Module OnsFile.

(** [sub in s] *)
Fixpoint contains (sub s : string) : bool :=
  String.prefix sub s ||
  match s with
  | EmptyString => false
  | String _ s' => contains sub s'
  end.

(** [s.split(sep)] for a separator of one character; [cur] is the piece
    being read. *)
Fixpoint split_on_go (sep : ascii) (cur : string) (s : string) : list string :=
  match s with
  | EmptyString => [cur]
  | String c s' =>
      if decide (c = sep) then cur :: split_on_go sep "" s'
      else split_on_go sep (cur +:+ String c "") s'
  end.

Definition split_on (sep : ascii) (s : string) : list string :=
  split_on_go sep "" s.

Definition comma : ascii := ascii_of_nat 44.
Definition double_quote : ascii := ascii_of_nat 34.

(** Line 42: ['Title' in line or (len(line.split(',')) >= 2 and line.strip())]. *)
Definition looks_like_header (line : string) : bool :=
  contains "Title" line ||
  (bool_decide (2 ≤ length (split_on comma line))%nat
   && bool_decide (PyStr.strip line ≠ "")).

(** Lines 45-46, on the raw next line: it is stripped, and must be
    non-empty and start with a digit or a double quote. *)
Definition looks_like_data (raw_next_line : string) : bool :=
  match PyStr.strip raw_next_line with
  | EmptyString => false
  | String c _ => PyStr.isdigit c || bool_decide (c = double_quote)
  end.

(** The loop of lines 41-48 from line number [i] on: the first line that
    looks like a header and is followed by a line that looks like data. *)
Fixpoint find_header (i : nat) (lines : list string) : option nat :=
  match lines with
  | [] => None
  | line :: rest =>
      match rest with
      | [] => None
      | next_line :: _ =>
          if looks_like_header line && looks_like_data next_line
          then Some i
          else find_header (S i) rest
      end
  end.

(** Line [j] passes the tests of the loop: it looks like a header and line
    [j + 1] looks like data. *)
Definition qualifies (lines : list string) (j : nat) : Prop :=
  ∃ line next_line,
    lines !! j = Some line ∧ lines !! S j = Some next_line
    ∧ looks_like_header line && looks_like_data next_line = true.

(** Lines 40-48: [header_row] stays 0 when the loop finds nothing. *)
Definition header_row (lines : list string) : nat :=
  default 0 (find_header 0 lines).

Section SkipRows.

(** A frame as [pd.read_csv] returns it, seen through the number of its
    columns and of its rows. *)
Context {frame : Type} (ncols nrows : frame → nat).

(** [pd.read_csv(filepath, skiprows=skip)] on the file at hand: a frame or
    an exception. *)
Variable read_csv : nat → Py.result frame.

(** Line 54: [len(df.columns) >= 2 and len(df) > 10]. *)
Definition acceptable (df : frame) : bool :=
  bool_decide (2 ≤ ncols df)%nat && bool_decide (10 < nrows df)%nat.

(** The loop of lines 51-57 over the remaining candidates; [df] is the
    variable [df] as the earlier iterations left it ([None]: unbound). *)
Fixpoint try_skips (skips : list nat) (df : option frame) : option frame :=
  match skips with
  | [] => df
  | skip :: skips' =>
      match read_csv skip with
      | Py.Returns df' =>
          if acceptable df' then Some df' else try_skips skips' (Some df')
      | Py.Raises _ => try_skips skips' df
      end
  end.

(** Lines 51-57: the frame the rest of the function works on. *)
Definition read_frame (lines : list string) : option frame :=
  try_skips [header_row lines; 7; 8; 6; 5]%nat None.

End SkipRows.

(** [Timestamp.strftime('%B')] *)
Definition month_name (m : N) : option string :=
  match m with
  | 1 => Some "January" | 2 => Some "February" | 3 => Some "March"
  | 4 => Some "April" | 5 => Some "May" | 6 => Some "June"
  | 7 => Some "July" | 8 => Some "August" | 9 => Some "September"
  | 10 => Some "October" | 11 => Some "November" | 12 => Some "December"
  | _ => None
  end%N.

Section Rows.

(** The numeric type of the value column. *)
Context {V : Type}.

(** A row of the frame [clean_ons_timeseries] returns; [value] stands for
    the column named by [value_column_name]. *)
Record ts_row : Type := TsRow {
  date : Pandas.datetime;
  value : V;
  year : option N;
  month : option N;
  ts_month_name : option string
}.

(** The library calls of lines 88-111:
    - [to_datetime s]: [pd.to_datetime] on a scalar string;
    - [to_numeric s]: [pd.to_numeric(..., errors='coerce')] on one cell,
      [None] when the cell becomes NaN;
    - [to_datetime_column col]: [pd.to_datetime] on a whole column, which
      raises when a cell cannot be parsed;
    - [sort_values df]: [df.sort_values('date').reset_index(drop=True)]. *)
Variable to_datetime : string → Py.result Pandas.datetime.
Variable to_numeric : string → option V.
Variable to_datetime_column : list string → Py.result (list Pandas.datetime).
Variable sort_values : list ts_row → list ts_row.

(** Lines 96-97: the value column is made numeric and its nulls dropped;
    each kept row is its [date_clean] with its value. *)
Definition clean_values (df : list (CostOfLiving.ons_row * string)) :
    list (string * V) :=
  omap (λ '(r, date_clean),
          v ← to_numeric (CostOfLiving.ons_value r); Some (date_clean, v)) df.

(** Lines 100-108: one row of [result]. *)
Definition result_row (d : Pandas.datetime) (v : V) : ts_row :=
  let cal := match d with
             | Pandas.Timestamp c => Some c
             | Pandas.NaT => None
             end in
  {| date := d; value := v;
     year := Pandas.year <$> cal;
     month := Pandas.month <$> cal;
     ts_month_name := cal ≫= (λ c, month_name (Pandas.month c)) |}.

(** The body of the outer [try] from line 64 on, lines 64-113. *)
Definition clean_ons_timeseries_try (df : list CostOfLiving.ons_row) :
    Py.result (list ts_row) :=
  let df := clean_values (CostOfLiving.clean_ons_timeseries_dates to_datetime df) in
  dates ← to_datetime_column (fst <$> df);
  Py.Returns (sort_values (zip_with result_row dates (snd <$> df))).

(** [clean_ons_timeseries] from line 64 on: the outer [except] (lines
    115-117) prints the error and returns [None]. *)
Definition clean_ons_timeseries_rows (df : list CostOfLiving.ons_row) :
    option (list ts_row) :=
  match clean_ons_timeseries_try df with
  | Py.Returns result => Some result
  | Py.Raises _ => None
  end.

End Rows.

End OnsFile.

(** ** Cost of living: the derived metrics (02_data_cleaning.py) *)

Module Metrics.

(** A float64 cell, as far as comparisons see it: a null, an infinity, or a
    finite value, which is a rational number. *)
Inductive pyfloat : Type :=
  | NaN
  | NegInf
  | Finite (q : Qc)
  | PosInf.

(** [pd.isna(rate)] *)
Definition isna (rate : pyfloat) : bool :=
  match rate with
  | NaN => true
  | _ => false
  end.

(** [rate < c] and [rate > c] for an integral constant [c]; a comparison
    with a null is false. *)
Definition lt_const (rate : pyfloat) (c : Z) : bool :=
  match rate with
  | NaN => false
  | NegInf => true
  | Finite q => bool_decide (q < Qc_of_Z c)%Qc
  | PosInf => false
  end.

Definition gt_const (rate : pyfloat) (c : Z) : bool :=
  match rate with
  | NaN => false
  | NegInf => false
  | Finite q => bool_decide (Qc_of_Z c < q)%Qc
  | PosInf => true
  end.

(** [classify_inflation], lines 288-304. *)
Definition classify_inflation (rate : pyfloat) : string :=
  if isna rate then "Unknown"
  else if lt_const rate 0 then "Deflation"
  else if lt_const rate 1 then "Very Low"
  else if lt_const rate 2 then "Below Target"
  else if lt_const rate 3 then "On Target"
  else if lt_const rate 5 then "Elevated"
  else if lt_const rate 10 then "High"
  else "Very High".

(** Line 282: [df['above_target'] = df['cpi_annual'] > 2.0]. *)
Definition above_target (cpi_annual : pyfloat) : bool := gt_const cpi_annual 2.

(** The regimes in rising order, to compare two classifications; a label
    that is no regime has no rank. *)
Definition severity (regime : string) : option nat :=
  if decide (regime = "Deflation") then Some 0%nat
  else if decide (regime = "Very Low") then Some 1%nat
  else if decide (regime = "Below Target") then Some 2%nat
  else if decide (regime = "On Target") then Some 3%nat
  else if decide (regime = "Elevated") then Some 4%nat
  else if decide (regime = "High") then Some 5%nat
  else if decide (regime = "Very High") then Some 6%nat
  else None.

(** The order of float64 values that are not null. *)
Definition float_le (x y : pyfloat) : Prop :=
  match x, y with
  | NaN, _ | _, NaN => False
  | NegInf, _ => True
  | _, PosInf => True
  | Finite p, Finite q => (p ≤ q)%Qc
  | _, _ => False
  end.

End Metrics.

(** ** Housing market: the widgets and the table of the dashboard (app.py) *)

Module DashboardView.
Import Dashboard.

(** [Series.unique()]: the values in order of first appearance. *)
Definition unique {A} `{EqDecision A} (col : list A) : list A :=
  Housing.drop_duplicates (λ x, x) col.

(** [int(df['price'].min())]; the minimum of an empty column is NaN, which
    [int] refuses. *)
Definition min_price (prices : list Z) : Py.result Z :=
  match prices with
  | [] => Py.Raises Py.ValueError
  | p :: ps => Py.Returns (foldr Z.min p ps)
  end.

Section Defaults.

(** [int(df['price'].quantile(0.99))] on a non-empty column, a library
    call. *)
Variable quantile_99 : list Z → Z.

(** Lines 112-145: the value each widget holds until the user changes it
    (the [default] of the three multiselects, the [value] of the slider). *)
Definition default_selection (df : list row) : Py.result selection :=
  let years := merge_sort N.le (unique (year <$> df)) in
  let boroughs := merge_sort String.le (unique (district <$> df)) in
  let property_types := unique (property_type_name <$> df) in
  lo ← min_price (price <$> df);
  let hi := quantile_99 (price <$> df) in
  Py.Returns {| selected_years := years;
                selected_boroughs := boroughs;
                selected_types := property_types;
                price_range := (lo, hi) |}.

End Defaults.

(** A row of the transaction table, lines 341-342: five columns of the
    filtered table, renamed. *)
Record display_row : Type := DisplayRow {
  Date : Pandas.date;
  Borough : string;
  Postcode : string;
  Property_Type : option string;
  Price : Z
}.

Definition to_display (r : row) : display_row :=
  {| Date := date_of_transfer r; Borough := district r;
     Postcode := postcode r; Property_Type := property_type_name r;
     Price := price r |}.

(** The order [sort_values('Price', ascending=False)] puts the rows in:
    [a] may come before [b] when its price is not lower. *)
Definition price_desc (a b : display_row) : Prop := (Price b ≤ Price a)%Z.

Global Instance price_desc_dec : RelDecision price_desc.
Proof. intros a b. unfold price_desc. apply _. Defined.

Section Display.

(** [sort_values('Price', ascending=False)], a library call. *)
Variable sort_values : list display_row → list display_row.

(** Lines 341-343: [display_df] before its cells are formatted. *)
Definition display_df (filtered : list row) (show_rows : nat) : list display_row :=
  take show_rows (sort_values (to_display <$> filtered)).

End Display.

End DashboardView.

(** ** Cost of living: what a download attempt comes to *)

Module DownloadOutcome.
Import Download.

(** What one attempt does to the file of its dataset. *)
Inductive attempt : Type :=
  | Stored (body : string)
  | Spoiled (left_on_disk : string)
  | Untouched.

(** The attempt for one entry of [datasets]: the file is stored when the
    request returns, the status is no error status, the file opens and the
    write completes; it is spoiled when the file opens and the write does
    not complete; it is untouched when the attempt fails before the file is
    opened. *)
Definition attempt_of (requests_get : string → Py.result response)
    (open_wb : string → bool) (f_write : string → string → write_outcome)
    (ds : string * string * string) : attempt :=
  match requests_get ds.1.1 with
  | Py.Returns r =>
      if bool_decide (400 ≤ status_code r < 600)%Z then Untouched
      else if open_wb (raw_path ds.1.2) then
        match f_write (raw_path ds.1.2) (content r) with
        | Written => Stored (content r)
        | WriteFailed left_on_disk => Spoiled left_on_disk
        end
      else Untouched
  | Py.Raises _ => Untouched
  end.

(** The files once the attempt is over. *)
Definition after_attempt (a : attempt) (path : string)
    (fs : gmap string string) : gmap string string :=
  match a with
  | Stored body => <[path := body]> fs
  | Spoiled left_on_disk => <[path := left_on_disk]> fs
  | Untouched => fs
  end.

(** Whether the attempt goes through to the end. *)
Definition succeeds (requests_get : string → Py.result response)
    (open_wb : string → bool) (f_write : string → string → write_outcome)
    (ds : string * string * string) : bool :=
  match attempt_of requests_get open_wb f_write ds with
  | Stored _ => true
  | _ => false
  end.

(** Whether [process_ons_downloads] counts a file: it is on disk and
    [pd.read_csv] finds at least one row in it. *)
Definition processable (read_csv : string → Py.result nat)
    (fs : gmap string string) (filename : string) : bool :=
  match fs !! raw_path filename with
  | Some c =>
      match read_csv c with
      | Py.Returns rows => bool_decide (0 < rows)%nat
      | Py.Raises _ => false
      end
  | None => false
  end.

End DownloadOutcome.

(** ** A reference instance of the column parser

    [pd.to_datetime] on a column with the default [errors='raise']: every
    cell is read, and the first cell that cannot be read raises. *)

Module IsoColumns.

Fixpoint to_datetime_column (col : list string) : Py.result (list Pandas.datetime) :=
  match col with
  | [] => Py.Returns []
  | s :: col' =>
      t ← IsoDates.to_datetime s;
      ts ← to_datetime_column col';
      Py.Returns (t :: ts)
  end.

End IsoColumns.

(** ** Cost of living: from the ONS files to the master table
    (02_data_cleaning.py) *)

Module MasterTable.

(** The dict [ons_files] of [process_ons_files], in the order of the
    literal: file name and column name. *)
Definition ons_files : list (string * string) :=
  [ ("cpi_annual_rate.csv", "cpi_annual");
    ("cpih_annual_rate.csv", "cpih_annual");
    ("cpi_monthly_rate.csv", "cpi_monthly");
    ("food_inflation.csv", "food_inflation");
    ("housing_energy_inflation.csv", "housing_energy_inflation") ].

(** [os.path.join(RAW_PATH, filename)] *)
Definition raw_file (filename : string) : string := "../data/raw/" +:+ filename.

(** [d.get(key)] on a dict kept as the list of its items, in insertion
    order. *)
Fixpoint get {F : Type} (key : string) (items : list (string * F)) : option F :=
  match items with
  | [] => None
  | (k, v) :: items' => if decide (k = key) then Some v else get key items'
  end.

Section Tables.

(** A frame, seen through its number of rows, and what the functions call:
    - [path_exists p]: [os.path.exists(p)];
    - [clean_ons_timeseries filepath col]: the cleaned series of a file, or
      [None];
    - [merge_left merged df name]:
      [merged.merge(df[['date', name]], on='date', how='left')];
    - [merge_categories master gen]: the merge of lines 240-241;
    - [empty_frame]: [pd.DataFrame()]. *)
Context {frame : Type} (len : frame → nat).
Variable path_exists : string → bool.
Variable clean_ons_timeseries : string → string → option frame.
Variable merge_left : frame → frame → string → frame.
Variable merge_categories : frame → frame → frame.
Variable empty_frame : frame.

(** The loop of [process_ons_files], lines 137-148: the items added to
    [processed_dfs], in order. *)
Fixpoint process_files (files : list (string * string)) : list (string * frame) :=
  match files with
  | [] => []
  | (filename, col_name) :: files' =>
      let filepath := raw_file filename in
      if path_exists filepath then
        match clean_ons_timeseries filepath col_name with
        | Some df =>
            if bool_decide (0 < len df)%nat
            then (col_name, df) :: process_files files'
            else process_files files'
        | None => process_files files'
        end
      else process_files files'
  end.

(** [process_ons_files], lines 120-150. *)
Definition process_ons_files : list (string * frame) := process_files ons_files.

(** [merge_cpi_data], lines 153-176. *)
Definition merge_cpi_data (processed_dfs : list (string * frame)) : option frame :=
  match get "cpi_annual" processed_dfs with
  | None => None
  | Some cpi_annual =>
      Some (foldl (λ merged '(name, df),
                     if decide (name ≠ "cpi_annual")
                     then merge_left merged df name
                     else merged)
              cpi_annual processed_dfs)
  end.

(** [create_master_cpi_table], lines 220-252. *)
Definition create_master_cpi_table (ons_merged : option frame)
    (generated_data : list (string * frame)) : frame :=
  match ons_merged with
  | Some merged =>
      if bool_decide (0 < len merged)%nat then
        match get "cpi_categories" generated_data with
        | Some gen => merge_categories merged gen
        | None => merged
        end
      else default empty_frame (get "cpi_categories" generated_data)
  | None => default empty_frame (get "cpi_categories" generated_data)
  end.

End Tables.

End MasterTable.

(** ** The calendar of the specification

    The twelve month abbreviations with their numbers, and the final month
    of a quarter, as the specification names them; the properties compare
    [month_map] with these. *)

Module Calendar.

Inductive month : Type :=
  | Jan | Feb | Mar | Apr | May | Jun | Jul | Aug | Sep | Oct | Nov | Dec.

Definition abbreviation (m : month) : string :=
  match m with
  | Jan => "JAN" | Feb => "FEB" | Mar => "MAR" | Apr => "APR"
  | May => "MAY" | Jun => "JUN" | Jul => "JUL" | Aug => "AUG"
  | Sep => "SEP" | Oct => "OCT" | Nov => "NOV" | Dec => "DEC"
  end.

Definition number (m : month) : N :=
  match m with
  | Jan => 1 | Feb => 2 | Mar => 3 | Apr => 4 | May => 5 | Jun => 6
  | Jul => 7 | Aug => 8 | Sep => 9 | Oct => 10 | Nov => 11 | Dec => 12
  end.

(** Quarter [q] (1 to 4) ends with month [3 * q]. *)
Definition quarter_final_month (q : N) : N := (3 * q)%N.

End Calendar.

(* ===================================================================== *)
(** * Part II: properties *)
(* ===================================================================== *)

(** ** Strings *)

Module PyStrFacts.
Import PyStr.

#[local] Arguments append !_ _ / : simpl nomatch.

Lemma app_assoc (a b c : string) : (a +:+ b) +:+ c = a +:+ (b +:+ c).
Proof. induction a as [|x a IH]; simpl; [done | by rewrite IH]. Qed.

Lemma app_empty_r (a : string) : a +:+ "" = a.
Proof. induction a as [|x a IH]; simpl; [done | by rewrite IH]. Qed.

Lemma app_length (a b : string) :
  String.length (a +:+ b) = String.length a + String.length b.
Proof. induction a as [|x a IH]; simpl; [done | by rewrite IH]. Qed.


Lemma snoc_ne_empty (a : string) (c : ascii) : a +:+ String c "" ≠ "".
Proof. destruct a; discriminate. Qed.


(** Upper-casing never turns a character into or out of white space. *)
Lemma isspace_upper_char c : isspace (upper_char c) = isspace c.
Proof. by destruct c as [[] [] [] [] [] [] [] []]. Qed.

Lemma all_nonspace_upper s : all nonspace (upper s) = all nonspace s.
Proof.
  induction s as [|c s IH]; simpl; [done |].
  unfold nonspace at 1 3. by rewrite isspace_upper_char, IH.
Qed.

Lemma upper_eq_empty s : upper s = "" → s = "".
Proof. by destruct s. Qed.

Lemma upper_app (a b : string) : upper (a +:+ b) = upper a +:+ upper b.
Proof. induction a as [|x a IH]; simpl; [done | by rewrite IH]. Qed.

(** *** [split] *)

Lemma split_go_nonspace w : ∀ tok s,
  all nonspace w = true →
  split_go tok (w +:+ s) = split_go (tok +:+ w) s.
Proof.
  induction w as [|c w IH]; intros tok s Hw; simpl in *.
  - by rewrite app_empty_r.
  - apply andb_prop in Hw as [Hc Hw]. unfold nonspace in Hc.
    apply negb_true_iff in Hc. rewrite Hc, IH by done.
    by rewrite app_assoc.
Qed.

Lemma split_go_space ws : ∀ s,
  all isspace ws = true → split_go "" (ws +:+ s) = split_go "" s.
Proof.
  induction ws as [|c ws IH]; intros s Hws; simpl in *; [done |].
  apply andb_prop in Hws as [Hc Hws]. rewrite Hc. by apply IH.
Qed.

Lemma split_go_flush tok ws s :
  tok ≠ "" → ws ≠ "" → all isspace ws = true →
  split_go tok (ws +:+ s) = tok :: split_go "" s.
Proof.
  intros Htok Hne Hws. destruct ws as [|c ws]; [done |]. simpl in *.
  apply andb_prop in Hws as [Hc Hws]. rewrite Hc.
  rewrite decide_False by done. f_equal. by apply split_go_space.
Qed.

Lemma split_go_end tok ws :
  tok ≠ "" → all isspace ws = true → split_go tok ws = [tok].
Proof.
  intros Htok Hws. destruct ws as [|c ws]; simpl in *.
  - by rewrite decide_False.
  - apply andb_prop in Hws as [Hc Hws]. rewrite Hc.
    rewrite decide_False by done. f_equal.
    rewrite <- (app_empty_r ws). by rewrite split_go_space.
Qed.

(** Two tokens with white space around and between them split into
    exactly these two tokens. *)
Lemma split_two_tokens (ws1 y ws2 m ws3 : string) :
  token y → token m →
  all isspace ws1 = true → all isspace ws2 = true → ws2 ≠ "" →
  all isspace ws3 = true →
  split (ws1 +:+ y +:+ ws2 +:+ m +:+ ws3) = [y; m].
Proof.
  intros [Hy Hyw] [Hm Hmw] H1 H2 H2' H3. unfold split.
  rewrite split_go_space by done.
  rewrite split_go_nonspace by done. simpl.
  rewrite split_go_flush by done. f_equal.
  rewrite split_go_nonspace by done. simpl.
  by apply split_go_end.
Qed.


(** *** [strip] *)

Lemma rstrip_empty_all_space s : rstrip s = "" → all isspace s = true.
Proof.
  induction s as [|c s IH]; simpl; [done |].
  destruct (rstrip s); [| discriminate].
  destruct (isspace c); [| discriminate]. intros _. by rewrite IH.
Qed.

Lemma split_go_rstrip s : ∀ tok, split_go tok (rstrip s) = split_go tok s.
Proof.
  induction s as [|c s IH]; intros tok; simpl; [done |].
  destruct (rstrip s) as [|c' r] eqn:Hr.
  - pose proof (rstrip_empty_all_space _ Hr) as Hs.
    destruct (isspace c) eqn:Hc; simpl; rewrite ?Hc, <- ?IH; simpl.
    + by destruct (decide (tok = "")).
    + done.
  - simpl. destruct (isspace c).
    + destruct (decide (tok = "")); by rewrite <- IH.
    + by rewrite <- IH.
Qed.

Lemma split_lstrip s : split (lstrip s) = split s.
Proof.
  unfold split. induction s as [|c s IH]; simpl; [done |].
  destruct (isspace c) eqn:Hc.
  - exact IH.
  - simpl. by rewrite Hc.
Qed.

(** [s.strip().split() == s.split()] *)
Lemma split_strip s : split (strip s) = split s.
Proof. unfold strip, split. by rewrite split_go_rstrip, split_lstrip. Qed.




Lemma rstrip_idemp s : rstrip (rstrip s) = rstrip s.
Proof.
  induction s as [|c s IH]; simpl; [done |].
  destruct (rstrip s) as [|c' r] eqn:Hr.
  - destruct (isspace c) eqn:Hc; simpl; [done | by rewrite Hc].
  - remember (String c' r) as t. simpl. rewrite IH. by subst t.
Qed.

(** What [lstrip] returns does not start with white space, and [rstrip]
    keeps it so. *)
Lemma lstrip_no_leading_space s : no_leading_space (lstrip s).
Proof.
  induction s as [|c s IH]; simpl; [done |].
  destruct (isspace c) eqn:Hc; [done | by simpl].
Qed.

Lemma rstrip_no_leading_space s : no_leading_space s → no_leading_space (rstrip s).
Proof.
  destruct s as [|c s]; simpl; [done |]. intros Hc.
  destruct (rstrip s); [by rewrite Hc | done].
Qed.

Lemma lstrip_id s : no_leading_space s → lstrip s = s.
Proof. destruct s as [|c s]; simpl; [done |]. by intros ->. Qed.

(** [s.strip().strip() == s.strip()] *)
Lemma strip_idemp s : strip (strip s) = strip s.
Proof.
  unfold strip.
  rewrite (lstrip_id (rstrip (lstrip s))).
  - apply rstrip_idemp.
  - apply rstrip_no_leading_space, lstrip_no_leading_space.
Qed.

End PyStrFacts.

(** ** Printed numbers and dates *)

Module PandasFacts.
Import PyStr PyStrFacts.

#[local] Arguments append !_ _ / : simpl nomatch.

Lemma isdigit_nonspace c : isdigit c = true → nonspace c = true.
Proof. by destruct c as [[] [] [] [] [] [] [] []]. Qed.

Lemma all_digits_nonspace s : all isdigit s = true → all nonspace s = true.
Proof.
  induction s as [|c s IH]; simpl; [done |]. intros H.
  apply andb_prop in H as [Hc Hs]. by rewrite isdigit_nonspace, IH.
Qed.

Lemma pretty_N_char_isdigit x : isdigit (pretty_N_char x) = true.
Proof. unfold pretty_N_char. by repeat case_match. Qed.

Lemma pretty_N_go_digits x : ∀ s,
  all isdigit s = true → all isdigit (pretty_N_go x s) = true.
Proof.
  induction (N.lt_wf_0 x) as [x _ IH]; intros s Hs.
  assert (x = 0 ∨ 0 < x)%N as [-> | Hx] by lia.
  - by rewrite pretty_N_go_0.
  - rewrite pretty_N_go_step by done. apply IH.
    + by apply N.div_lt.
    + simpl. by rewrite pretty_N_char_isdigit.
Qed.

Lemma pretty_N_go_length x : ∀ s,
  (String.length s ≤ String.length (pretty_N_go x s))%nat.
Proof.
  induction (N.lt_wf_0 x) as [x _ IH]; intros s.
  assert (x = 0 ∨ 0 < x)%N as [-> | Hx] by lia.
  - by rewrite pretty_N_go_0.
  - rewrite pretty_N_go_step by done.
    etrans; [| apply IH; by apply N.div_lt]. simpl. lia.
Qed.

Lemma pretty_N_digits (x : N) : all isdigit (pretty x) = true.
Proof.
  unfold pretty, pretty_N. case_decide; [done |].
  by apply pretty_N_go_digits.
Qed.

Lemma pretty_N_nonempty (x : N) : pretty x ≠ "".
Proof.
  unfold pretty, pretty_N. case_decide; [done |].
  rewrite pretty_N_go_step by lia. intros Hp.
  pose proof (pretty_N_go_length (x `div` 10)
                (String (pretty_N_char (x `mod` 10)) "")) as Hlen.
  rewrite Hp in Hlen. simpl in Hlen. lia.
Qed.

(** A number of at least four digits is printed with at least four
    characters, so [zfill 4] leaves it alone. *)
Lemma pretty_N_length_4 (x : N) : (1000 ≤ x)%N → (4 ≤ String.length (pretty x))%nat.
Proof.
  intros Hx. unfold pretty, pretty_N. rewrite decide_False by lia.
  assert (0 < x `div` 10 ∧ 0 < (x `div` 10) `div` 10
          ∧ 0 < ((x `div` 10) `div` 10) `div` 10)%N as (H1 & H2 & H3).
  { repeat split; apply N.div_str_pos_iff; try lia.
    - apply N.div_le_lower_bound; lia.
    - apply N.div_le_lower_bound; [lia |].
      apply N.div_le_lower_bound; lia. }
  rewrite 4!pretty_N_go_step by lia.
  etrans; [| apply pretty_N_go_length]. simpl. lia.
Qed.

Lemma zfill_long w s : (w ≤ String.length s)%nat → zfill w s = s.
Proof.
  intros H. unfold zfill. by replace (w - String.length s) with 0 by lia.
Qed.






End PandasFacts.

(** ** The ONS date normalizer *)

Module CostOfLivingFacts.
Import PyStr PyStrFacts PandasFacts CostOfLiving.

#[local] Arguments append !_ _ / : simpl nomatch.

(** A key of [month_map] is one of the sixteen entries of the literal. *)
Lemma month_map_lookup k mm :
  month_map !! k = Some mm → (k, mm) ∈ month_table.
Proof. apply elem_of_list_to_map_2. Qed.

Lemma month_map_key_token k mm : month_map !! k = Some mm → token k.
Proof.
  intros H%month_map_lookup. unfold month_table in H.
  repeat (apply elem_of_cons in H as [[= -> ->] | H]; [by split |]).
  by apply elem_of_nil in H.
Qed.

(** A second token that upper-cases to a key is itself a token. *)
Lemma upper_key_token part1 mm :
  month_map !! upper part1 = Some mm → token part1.
Proof.
  intros [Hne Hw]%month_map_key_token. split.
  - intros ->. by apply Hne.
  - by rewrite <- all_nonspace_upper.
Qed.

(** The lookup on an already split input. *)
Lemma lookup_path_split date_str year part1 mm :
  split date_str = [year; part1] →
  month_map !! upper part1 = Some mm →
  lookup_path date_str = Some (year +:+ "-" +:+ mm +:+ "-01").
Proof.
  intros Hs Hm. unfold lookup_path. rewrite Hs. simpl.
  by rewrite Hm.
Qed.

Lemma lookup_path_split_miss date_str year part1 :
  split date_str = [year; part1] →
  month_map !! upper part1 = None →
  lookup_path date_str = None.
Proof.
  intros Hs Hm. unfold lookup_path. rewrite Hs. simpl.
  by rewrite Hm.
Qed.

Lemma lookup_path_not_two date_str :
  length (split date_str) ≠ 2 → lookup_path date_str = None.
Proof. intros H. unfold lookup_path. by rewrite decide_False. Qed.

Section Parse.

Variable to_datetime : string → Py.result Pandas.datetime.

(** When the lookup answers, its answer is returned whatever the generic
    parser would say. *)
Lemma parse_lookup_hit s r :
  lookup_path (strip s) = Some r → parse_ons_date to_datetime s = Some r.
Proof.
  intros H. unfold parse_ons_date, parse_ons_date_try.
  by rewrite H.
Qed.

(** When it does not, the result is the generic parser's. *)
Lemma parse_lookup_miss s :
  lookup_path (strip s) = None →
  parse_ons_date to_datetime s =
    match to_datetime (strip s) with
    | Py.Returns (Pandas.Timestamp d) => Some (Pandas.strftime_Ymd d)
    | Py.Returns Pandas.NaT => None
    | Py.Raises _ => None
    end.
Proof.
  intros H. unfold parse_ons_date, parse_ons_date_try,
    fallback_path.
  rewrite H. by destruct (to_datetime (strip s)) as [[d|]|e].
Qed.

(** Two tokens, the second a key up to case, with any white space around:
    the answer is built from the first token as it stands. *)
Lemma parse_two_tokens ws1 year ws2 part1 ws3 mm :
  token year →
  month_map !! upper part1 = Some mm →
  all isspace ws1 = true → all isspace ws2 = true → ws2 ≠ "" →
  all isspace ws3 = true →
  parse_ons_date to_datetime (ws1 +:+ year +:+ ws2 +:+ part1 +:+ ws3)
  = Some (year +:+ "-" +:+ mm +:+ "-01").
Proof.
  intros Hy Hm H1 H2 H2' H3. apply parse_lookup_hit.
  apply (lookup_path_split _ year part1 mm); [| done].
  rewrite split_strip. apply split_two_tokens; try done.
  by eapply upper_key_token.
Qed.

Lemma parse_year_space_part year part1 mm :
  token year →
  month_map !! upper part1 = Some mm →
  parse_ons_date to_datetime (year +:+ " " +:+ part1) = Some (year +:+ "-" +:+ mm +:+ "-01").
Proof.
  intros Hy Hm.
  pose proof (parse_two_tokens "" year " " part1 "" mm Hy Hm) as H.
  simpl in H. rewrite app_empty_r in H. by apply H.
Qed.

Lemma pretty_N_token (x : N) : token (pretty x).
Proof.
  split; [apply pretty_N_nonempty |].
  apply all_digits_nonspace, pretty_N_digits.
Qed.

Lemma strftime_first_of_month (Y m : N) (mm : string) :
  (1000 ≤ Y)%N → zfill 2 (pretty m) = mm →
  Pandas.strftime_Ymd (Pandas.Date Y m 1) = pretty Y +:+ "-" +:+ mm +:+ "-01".
Proof.
  intros HY <-. unfold Pandas.strftime_Ymd. simpl.
  by rewrite (zfill_long 4) by by apply pretty_N_length_4.
Qed.

(** The normalizer sees its input only through [strip]. *)
Lemma parse_strip s :
  parse_ons_date to_datetime (strip s) = parse_ons_date to_datetime s.
Proof. unfold parse_ons_date. by rewrite strip_idemp. Qed.

(** No number of two or more digits is printed with a leading zero. *)
Lemma pretty_N_go_head x : ∀ s,
  (0 < x)%N → ∃ c r, pretty_N_go x s = String c r ∧ c ≠ "0"%char.
Proof.
  induction (N.lt_wf_0 x) as [x _ IH]; intros s Hx.
  rewrite pretty_N_go_step by done.
  destruct (N.eq_0_gt_0_cases (x `div` 10)) as [H0 | Hpos].
  - rewrite H0, pretty_N_go_0. eexists _, _. split; [done |].
    assert (x < 10)%N as Hlt by (apply N.div_small_iff in H0; lia).
    rewrite N.mod_small by done.
    assert (x = 1 ∨ x = 2 ∨ x = 3 ∨ x = 4 ∨ x = 5 ∨ x = 6
            ∨ x = 7 ∨ x = 8 ∨ x = 9)%N as Hcases by lia.
    repeat (destruct Hcases as [-> | Hcases]; [done |]). by subst.
  - apply IH; [| done]. by apply N.div_lt.
Qed.

Lemma zfill_2_pretty_01 (x : N) : zfill 2 (pretty x) = "01" → x = 1%N.
Proof.
  intros H. destruct (decide (x = 0%N)) as [-> | Hx]; [done |].
  assert (0 < x)%N as Hpos by lia.
  destruct (pretty_N_go_head x "" Hpos) as (c & r & Hp & Hc).
  assert (pretty x = String c r) as Hpx.
  { unfold pretty, pretty_N. by rewrite decide_False. }
  rewrite Hpx in H. unfold zfill in H. simpl in H.
  destruct r as [|c' r]; simpl in H.
  - injection H as H. apply (inj pretty). rewrite Hpx. by rewrite H.
  - destruct r; simpl in H; injection H as H1 H2; by subst.
Qed.

(** The printed date is that of the first of the month only when the day
    is 1. *)
Lemma strftime_Ymd_day_1 d :
  Pandas.strftime_Ymd d
  = Pandas.strftime_Ymd (Pandas.Date (Pandas.year d) (Pandas.month d) 1) →
  Pandas.day d = 1%N.
Proof.
  unfold Pandas.strftime_Ymd. simpl Pandas.year. simpl Pandas.month.
  simpl Pandas.day. intros H.
  do 4 apply (inj (String.app _)) in H.
  by apply zfill_2_pretty_01.
Qed.

(** C1. For every input "<year> <MON>", a four-digit year followed by one of
    the twelve month abbreviations JAN..DEC in any letter case,
    [parse_ons_date] returns the canonical date string of the first day of
    that year and month. *)
Theorem parse_ons_date_year_month (Y : N) (mo : Calendar.month) (part1 : string) :
  (1000 ≤ Y ≤ 9999)%N →
  upper part1 = Calendar.abbreviation mo →
  parse_ons_date to_datetime (pretty Y +:+ " " +:+ part1)
  = Some (Pandas.strftime_Ymd (Pandas.Date Y (Calendar.number mo) 1)).
Proof.
  intros [HY _] Hm.
  rewrite (strftime_first_of_month Y _ _ HY eq_refl).
  apply parse_year_space_part; [apply pretty_N_token |].
  rewrite Hm. by destruct mo; vm_compute.
Qed.

(** C2. For every input "<year> Q<n>" with n from 1 to 4, [parse_ons_date]
    returns the first day of the final month of that quarter: March, June,
    September, December. *)
Theorem parse_ons_date_quarter (Y q : N) :
  (1000 ≤ Y ≤ 9999)%N →
  (1 ≤ q ≤ 4)%N →
  parse_ons_date to_datetime (pretty Y +:+ " Q" +:+ pretty q)
  = Some (Pandas.strftime_Ymd
            (Pandas.Date Y (Calendar.quarter_final_month q) 1)).
Proof.
  intros [HY _] Hq.
  rewrite (strftime_first_of_month Y _ _ HY eq_refl).
  change (pretty Y +:+ " Q" +:+ pretty q)
    with (pretty Y +:+ " " +:+ ("Q" +:+ pretty q)).
  apply parse_year_space_part; [apply pretty_N_token |].
  assert (q = 1 ∨ q = 2 ∨ q = 3 ∨ q = 4)%N as [-> | [-> | [-> | ->]]] by lia;
    by vm_compute.
Qed.

(** C3. For every input that matches no recognized pattern (the lookup does
    not answer and the generic parser yields no timestamp), the body of
    [parse_ons_date] raises and the function returns the failure signal
    [None] instead of letting the exception out. *)
Theorem parse_ons_date_unrecognized (s : string) :
  lookup_path (strip s) = None →
  (∀ d, to_datetime (strip s) ≠ Py.Returns (Pandas.Timestamp d)) →
  (∃ e, parse_ons_date_try to_datetime (strip s) = Py.Raises e)
  ∧ parse_ons_date to_datetime s = None.
Proof.
  intros Hl Hf. rewrite parse_lookup_miss by done.
  unfold parse_ons_date_try, fallback_path. rewrite Hl.
  destruct (to_datetime (strip s)) as [[d|]|e]; simpl.
  - by destruct (Hf d).
  - eauto.
  - eauto.
Qed.

(** C4. For every input that does not take the two-token lookup path and
    that the generic parser reads as a calendar date, [parse_ons_date]
    returns that date with its day of the month: the result is the
    first-of-month string only when the day is 1. *)
Theorem parse_ons_date_fallback_keeps_day (s : string) (d : Pandas.date) :
  lookup_path (strip s) = None →
  to_datetime (strip s) = Py.Returns (Pandas.Timestamp d) →
  parse_ons_date to_datetime s = Some (Pandas.strftime_Ymd d)
  ∧ (parse_ons_date to_datetime s
       = Some (Pandas.strftime_Ymd
                 (Pandas.Date (Pandas.year d) (Pandas.month d) 1)) →
     Pandas.day d = 1%N).
Proof.
  intros Hl Hd. rewrite parse_lookup_miss by done. rewrite Hd.
  split; [done |]. intros [= H]. by apply strftime_Ymd_day_1.
Qed.

(** The date stage keeps a row exactly when its date parses. *)
Lemma clean_dates_app df1 df2 :
  clean_ons_timeseries_dates to_datetime (df1 ++ df2)%list
  = (clean_ons_timeseries_dates to_datetime df1
     ++ clean_ons_timeseries_dates to_datetime df2)%list.
Proof.
  unfold clean_ons_timeseries_dates, Pandas.dropna.
  by rewrite fmap_app, omap_app.
Qed.

Lemma clean_dates_cons r df :
  clean_ons_timeseries_dates to_datetime (r :: df)
  = match parse_ons_date to_datetime (ons_date r) with
    | Some date_clean =>
        (strip_date r, date_clean) :: clean_ons_timeseries_dates to_datetime df
    | None => clean_ons_timeseries_dates to_datetime df
    end.
Proof.
  unfold clean_ons_timeseries_dates, Pandas.dropna. simpl.
  rewrite parse_strip. by destruct (parse_ons_date to_datetime (ons_date r)).
Qed.

(** C5. [parse_ons_date] tries the month/quarter table first on a
    two-token input; when the lookup does not answer (or the input is not
    two tokens) the result is that of the generic parser; and when both
    fail for the date of a record, the date stage of [clean_ons_timeseries]
    drops this record and keeps the records around it as they are. *)
Theorem parse_order_and_drop (s : string) (r : ons_row) (df1 df2 : list ons_row) :
  (∀ year part1 mm,
      split (strip s) = [year; part1] →
      month_map !! upper part1 = Some mm →
      parse_ons_date to_datetime s = Some (year +:+ "-" +:+ mm +:+ "-01"))
  ∧ ((length (split (strip s)) ≠ 2
      ∨ ∃ year part1, split (strip s) = [year; part1]
                      ∧ month_map !! upper part1 = None) →
     parse_ons_date to_datetime s
     = Py.try_except
         (res ← fallback_path to_datetime (strip s); Py.Returns (Some res))
         (λ _, None))
  ∧ (lookup_path (strip (ons_date r)) = None →
     (∃ e, fallback_path to_datetime (strip (ons_date r)) = Py.Raises e) →
     clean_ons_timeseries_dates to_datetime (df1 ++ r :: df2)%list
     = (clean_ons_timeseries_dates to_datetime df1
        ++ clean_ons_timeseries_dates to_datetime df2)%list).
Proof.
  split; [| split].
  - intros year part1 mm Hs Hm. apply parse_lookup_hit.
    by apply (lookup_path_split _ year part1 mm).
  - intros H.
    assert (lookup_path (strip s) = None) as Hl.
    { destruct H as [H | (year & part1 & Hs & Hm)].
      - by apply lookup_path_not_two.
      - by apply (lookup_path_split_miss _ year part1). }
    unfold parse_ons_date, parse_ons_date_try. by rewrite Hl.
  - intros Hl [e He]. rewrite clean_dates_app, clean_dates_cons.
    unfold parse_ons_date, parse_ons_date_try. by rewrite Hl, He.
Qed.


(** C7. The two-token lookup never validates the year token: for every
    first token and every second token whose upper-case form is in the
    table, the result is the first token followed by "-<mm>-01", also when
    the first token is not a number. *)
Theorem parse_ons_date_year_unchecked (year part1 mm : string) :
  token year →
  month_map !! upper part1 = Some mm →
  split (strip (year +:+ " " +:+ part1)) = [year; part1]
  ∧ parse_ons_date to_datetime (year +:+ " " +:+ part1)
    = Some (year +:+ "-" +:+ mm +:+ "-01").
Proof.
  intros Hy Hm. split; [| by apply parse_year_space_part].
  rewrite split_strip.
  pose proof (split_two_tokens "" year " " part1 "") as H.
  simpl in H. rewrite app_empty_r in H.
  apply H; try done. by eapply upper_key_token.
Qed.

End Parse.

(** *** The properties at work, with the reference parser *)

Lemma parse_ons_date_year_month_witness :
  (1000 ≤ 2023 ≤ 9999)%N
  ∧ upper "Mar" = Calendar.abbreviation Calendar.Mar
  ∧ parse_ons_date IsoDates.to_datetime "2023 Mar" = Some "2023-03-01".
Proof.
  assert (H1 : (1000 ≤ 2023 ≤ 9999)%N) by lia.
  assert (H2 : upper "Mar" = Calendar.abbreviation Calendar.Mar) by reflexivity.
  split; [exact H1 |]. split; [exact H2 |].
  exact (parse_ons_date_year_month IsoDates.to_datetime 2023 Calendar.Mar "Mar" H1 H2).
Defined.

Lemma parse_ons_date_quarter_witness :
  (1000 ≤ 2023 ≤ 9999)%N ∧ (1 ≤ 2 ≤ 4)%N
  ∧ parse_ons_date IsoDates.to_datetime "2023 Q2" = Some "2023-06-01".
Proof.
  assert (H1 : (1000 ≤ 2023 ≤ 9999)%N) by lia.
  assert (H2 : (1 ≤ 2 ≤ 4)%N) by lia.
  split; [exact H1 |]. split; [exact H2 |].
  exact (parse_ons_date_quarter IsoDates.to_datetime 2023 2 H1 H2).
Defined.

Lemma parse_ons_date_unrecognized_witness :
  lookup_path (strip "not a date") = None
  ∧ (∀ d, IsoDates.to_datetime (strip "not a date")
          ≠ Py.Returns (Pandas.Timestamp d))
  ∧ parse_ons_date IsoDates.to_datetime "not a date" = None.
Proof.
  assert (H1 : lookup_path (strip "not a date") = None)
    by (vm_compute; reflexivity).
  assert (H2 : ∀ d, IsoDates.to_datetime (strip "not a date")
                    ≠ Py.Returns (Pandas.Timestamp d))
    by (intros d H; vm_compute in H; discriminate H).
  split; [exact H1 |]. split; [exact H2 |].
  exact (proj2 (parse_ons_date_unrecognized IsoDates.to_datetime "not a date" H1 H2)).
Defined.

(** The empty cell: pandas answers [NaT], whose [strftime] raises. *)
Example parse_ons_date_empty :
  IsoDates.to_datetime (strip "") = Py.Returns Pandas.NaT
  ∧ parse_ons_date IsoDates.to_datetime "" = None.
Proof. by vm_compute. Qed.

Lemma parse_ons_date_fallback_keeps_day_witness :
  lookup_path (strip "2023-07-15") = None
  ∧ IsoDates.to_datetime (strip "2023-07-15")
    = Py.Returns (Pandas.Timestamp (Pandas.Date 2023 7 15))
  ∧ parse_ons_date IsoDates.to_datetime "2023-07-15" = Some "2023-07-15".
Proof.
  assert (H1 : lookup_path (strip "2023-07-15") = None)
    by (vm_compute; reflexivity).
  assert (H2 : IsoDates.to_datetime (strip "2023-07-15")
               = Py.Returns (Pandas.Timestamp (Pandas.Date 2023 7 15)))
    by (vm_compute; reflexivity).
  split; [exact H1 |]. split; [exact H2 |].
  exact (proj1 (parse_ons_date_fallback_keeps_day IsoDates.to_datetime
                  "2023-07-15" (Pandas.Date 2023 7 15) H1 H2)).
Defined.

Lemma parse_order_and_drop_witness :
  parse_ons_date IsoDates.to_datetime "2023 MAR" = Some "2023-03-01"
  ∧ parse_ons_date IsoDates.to_datetime "2023-07-15" = Some "2023-07-15"
  ∧ clean_ons_timeseries_dates IsoDates.to_datetime
      [OnsRow "2023 JAN" "4.0"; OnsRow "not a date" "5.1"; OnsRow "2023 FEB" "4.2"]
    = [(OnsRow "2023 JAN" "4.0", "2023-01-01");
       (OnsRow "2023 FEB" "4.2", "2023-02-01")].
Proof.
  assert (H : length (split (strip "2023-07-15")) ≠ 2)
    by (vm_compute; discriminate).
  split; [| split].
  - exact (proj1 (parse_order_and_drop IsoDates.to_datetime "2023 MAR"
                    (OnsRow "" "") [] [])
             "2023" "MAR" "03" eq_refl eq_refl).
  - exact (proj1 (proj2 (parse_order_and_drop IsoDates.to_datetime "2023-07-15"
                           (OnsRow "" "") [] []))
             (or_introl H)).
  - exact (proj2 (proj2 (parse_order_and_drop IsoDates.to_datetime ""
                           (OnsRow "not a date" "5.1")
                           [OnsRow "2023 JAN" "4.0"] [OnsRow "2023 FEB" "4.2"]))
             eq_refl (ex_intro _ Py.ParserError eq_refl)).
Defined.



Lemma parse_ons_date_year_unchecked_witness :
  token "garbage"
  ∧ month_map !! upper "JAN" = Some "01"
  ∧ parse_ons_date IsoDates.to_datetime "garbage JAN" = Some "garbage-01-01".
Proof.
  assert (H1 : token "garbage") by (split; [discriminate | reflexivity]).
  assert (H2 : month_map !! upper "JAN" = Some "01") by (vm_compute; reflexivity).
  split; [exact H1 |]. split; [exact H2 |].
  exact (proj2 (parse_ons_date_year_unchecked IsoDates.to_datetime
                  "garbage" "JAN" "01" H1 H2)).
Defined.

End CostOfLivingFacts.

(** ** The dashboard filters *)

Module DashboardFacts.
Import Dashboard.

Lemma mask_spec sel r :
  mask sel r = true ↔
    year r ∈ selected_years sel
    ∧ district r ∈ selected_boroughs sel
    ∧ property_type_name r ∈ selected_types sel
    ∧ (fst (price_range sel) ≤ price r ≤ snd (price_range sel))%Z.
Proof.
  unfold mask, isin.
  rewrite !andb_true_iff, !bool_decide_eq_true, !Z.leb_le. tauto.
Qed.

(** For every selection of the four filters, the filtered table is
    exactly the part of the in-memory table whose rows satisfy the four
    predicates together (year, district and property type among the selected
    ones, price within the range, bounds included): the same rows, in the
    same order, nothing added and nothing else removed; and when the
    sections of the page before the download return, the download payload is
    the serialization of this filtered table. *)
Lemma filtered_df_exact (to_csv : list row → string)
    (render_sections : list row → Py.result unit) (df : list row)
    (sel : selection) :
  (∀ r, r ∈ filtered_df df sel ↔
          r ∈ df
          ∧ year r ∈ selected_years sel
          ∧ district r ∈ selected_boroughs sel
          ∧ property_type_name r ∈ selected_types sel
          ∧ (fst (price_range sel) ≤ price r ≤ snd (price_range sel))%Z)
  ∧ filtered_df df sel `sublist_of` df
  ∧ (filtered_df df sel ++ filter (λ r, ¬ mask sel r) df)%list ≡ₚ df
  ∧ (render_sections (filtered_df df sel) = Py.Returns tt →
     download_data to_csv render_sections df sel
     = Py.Returns (to_csv (filtered_df df sel))).
Proof.
  split; [| split; [| split]].
  - intros r. unfold filtered_df.
    rewrite list_elem_of_filter, Is_true_true, mask_spec. tauto.
  - apply sublist_filter.
  - apply (filter_app_complement (λ r, mask sel r)).
  - intros Hr. unfold download_data. by rewrite Hr.
Qed.

(** C9. The download does not serialize every filtered view: when the
    selection leaves no row, the filtered table is the empty table, the
    first chart raises on it and the run of the script ends there, so that
    no payload is handed to the download button.  Whenever a section of the
    page raises on the filtered table, the download raises the same
    exception. *)
Theorem download_not_reached_on_empty_table (to_csv : list row → string)
    (render_sections : list row → Py.result unit) (df : list row)
    (sel : selection) (e : Py.exn) :
  (∀ r, r ∈ df → mask sel r = false) →
  render_sections [] = Py.Raises e →
  filtered_df df sel = []
  ∧ download_data to_csv render_sections df sel = Py.Raises e
  ∧ download_data to_csv render_sections df sel
    ≠ Py.Returns (to_csv (filtered_df df sel)).
Proof.
  intros Hmask Hr.
  assert (filtered_df df sel = []) as Hnil.
  { unfold filtered_df. destruct (filter _ df) as [|r l] eqn:Hf; [done |].
    assert (r ∈ filter (λ r, mask sel r) df) as Hin
      by (rewrite Hf; apply elem_of_cons; by left).
    apply list_elem_of_filter in Hin as [Hm Hin].
    rewrite (Hmask r Hin) in Hm. done. }
  split; [done |]. unfold download_data. rewrite Hnil, Hr. by split.
Qed.

(** No year selected: the table of the page is empty and the download is
    not reached. *)
Lemma download_not_reached_on_empty_table_witness :
  let r1 := Row (Pandas.Date 2023 5 2) "CAMDEN" "NW1 8AB"
              (Some "Flat/Maisonette") 450000 2023 in
  let sel := Selection [] ["CAMDEN"] [Some "Flat/Maisonette"]
               (0, 1000000)%Z in
  let to_csv := λ l : list row, pretty (length l) in
  (∀ r, r ∈ [r1] → mask sel r = false)
  ∧ Plotly.render_sections [] = Py.Raises Py.ValueError
  ∧ filtered_df [r1] sel = []
  ∧ download_data to_csv Plotly.render_sections [r1] sel
    = Py.Raises Py.ValueError.
Proof.
  intros r1 sel to_csv.
  assert (H1 : ∀ r, r ∈ [r1] → mask sel r = false).
  { intros r Hin. apply list_elem_of_singleton in Hin as ->. reflexivity. }
  assert (H2 : Plotly.render_sections [] = Py.Raises Py.ValueError)
    by reflexivity.
  split; [exact H1 |]. split; [exact H2 |].
  pose proof (download_not_reached_on_empty_table to_csv
                Plotly.render_sections [r1] sel Py.ValueError H1 H2)
    as (H3 & H4 & _).
  split; [exact H3 | exact H4].
Defined.

(** The same table with its year selected: the sections complete and the
    payload is the serialization of the filtered table. *)
Example download_data_example :
  let r1 := Row (Pandas.Date 2023 5 2) "CAMDEN" "NW1 8AB"
              (Some "Flat/Maisonette") 450000 2023 in
  let sel := Selection [2023%N] ["CAMDEN"] [Some "Flat/Maisonette"]
               (0, 1000000)%Z in
  ∀ to_csv : list row → string,
    download_data to_csv Plotly.render_sections [r1] sel
    = Py.Returns (to_csv [r1]).
Proof. intros r1 sel to_csv. by vm_compute. Qed.

Example filtered_df_example :
  let r1 := Row (Pandas.Date 2023 5 2) "CAMDEN" "NW1 8AB" (Some "Flat/Maisonette") 450000 2023 in
  let r2 := Row (Pandas.Date 2022 1 9) "BARNET" "EN5 1AA" (Some "Detached") 900000 2022 in
  let r3 := Row (Pandas.Date 2023 8 30) "CAMDEN" "NW3 2QG" None 1200000 2023 in
  filtered_df [r1; r2; r3]
    (Selection [2023%N] ["CAMDEN"; "BARNET"] [Some "Flat/Maisonette"; None]
       (450000, 1200000)%Z)
  = [r1; r3].
Proof. by vm_compute. Qed.

End DashboardFacts.

(** ** The housing cleaning script *)

Module HousingFacts.
Import Housing.

Section DropDuplicates.

Context {A K : Type} `{EqDecision K} (key : A → K).

(** Every row kept has a key not seen before, and no key is kept twice. *)
Lemma drop_duplicates_go_spec (df : list A) : ∀ seen,
  NoDup (key <$> drop_duplicates_go key seen df)
  ∧ (∀ r, r ∈ drop_duplicates_go key seen df → (key r ∉ seen) ∧ (r ∈ df)).
Proof.
  induction df as [|x df IH]; intros seen; simpl.
  - split; [constructor | intros r Hr; by apply elem_of_nil in Hr].
  - case_bool_decide as Hx.
    + destruct (IH seen) as [Hnd Hin]. split; [done |].
      intros r Hr. destruct (Hin r Hr) as [? ?]. split; [done |].
      by apply elem_of_cons; right.
    + destruct (IH (key x :: seen)) as [Hnd Hin]. split.
      * rewrite fmap_cons. apply NoDup_cons. split; [| done].
        intros (r & Hk & Hr)%list_elem_of_fmap.
        destruct (Hin r Hr) as [Hns _]. apply Hns.
        rewrite <- Hk. by apply elem_of_cons; left.
      * intros r [-> | Hr]%elem_of_cons.
        -- split; [done | by apply elem_of_cons; left].
        -- destruct (Hin r Hr) as [Hns ?]. split.
           ++ intros Hs. apply Hns. by apply elem_of_cons; right.
           ++ by apply elem_of_cons; right.
Qed.

Lemma drop_duplicates_NoDup (df : list A) :
  NoDup (key <$> drop_duplicates key df).
Proof. apply drop_duplicates_go_spec. Qed.

(** In a list without repeated keys, the key of a member selects exactly
    that member. *)
Lemma NoDup_key_once (l : list A) (x : A) :
  NoDup (key <$> l) → x ∈ l →
  length (filter (λ y, key y = key x) l) = 1.
Proof.
  induction l as [|y l IH]; intros Hnd Hx.
  - by apply elem_of_nil in Hx.
  - rewrite fmap_cons in Hnd. apply NoDup_cons in Hnd as [Hy Hnd].
    rewrite filter_cons. case_decide as Hk.
    + simpl. f_equal.
      destruct (filter (λ y0, key y0 = key x) l) as [|z t] eqn:E; [done |].
      exfalso.
      assert (z ∈ filter (λ y0, key y0 = key x) l) as [Hkz Hz]%list_elem_of_filter
        by (rewrite E; apply elem_of_cons; by left).
      apply Hy. rewrite Hk, <- Hkz. by apply list_elem_of_fmap_2.
    + apply elem_of_cons in Hx as [-> | Hx]; [done |]. by apply IH.
Qed.

End DropDuplicates.

Section CleanData.

Variable to_datetime_coerce : list (option string) → string → Pandas.datetime.

Lemma transaction_id_derive r : transaction_id (derive r) = transaction_id r.
Proof. done. Qed.

Lemma transaction_id_convert column r :
  transaction_id (convert_date to_datetime_coerce column r) = raw_transaction_id r.
Proof. done. Qed.

(** The transaction ids of the result are among those left by step 1, in
    the same order. *)
Lemma clean_data_ids (df : list raw_row) :
  transaction_id <$> clean_data to_datetime_coerce df
  `sublist_of` raw_transaction_id <$> drop_duplicates raw_transaction_id df.
Proof.
  unfold clean_data. rewrite <- list_fmap_compose.
  set (column := raw_date_of_transfer <$> _).
  trans (transaction_id ∘ derive <$>
           (convert_date to_datetime_coerce column
              <$> drop_duplicates raw_transaction_id df)).
  - apply fmap_sublist. etrans; apply sublist_filter.
  - by rewrite <- list_fmap_compose.
Qed.

Lemma clean_data_NoDup (df : list raw_row) :
  NoDup (transaction_id <$> clean_data to_datetime_coerce df).
Proof.
  eapply sublist_NoDup; [| apply clean_data_ids].
  apply drop_duplicates_NoDup.
Qed.

(** C10. Every row of the frame [clean_data] returns has a non-null price,
    date of transfer, postcode and district, a price between 10000 and
    50000000 inclusive, and a transaction id that occurs exactly once in the
    result. *)
Theorem clean_data_invariants (df : list raw_row) (r : row) :
  r ∈ clean_data to_datetime_coerce df →
  (∃ p, price r = Some p ∧ (10000 ≤ p ≤ 50000000)%Z)
  ∧ date_of_transfer r ≠ Pandas.NaT
  ∧ is_Some (postcode r)
  ∧ is_Some (district r)
  ∧ length (filter (λ r', transaction_id r' = transaction_id r)
              (clean_data to_datetime_coerce df)) = 1.
Proof.
  intros Hr.
  pose proof (NoDup_key_once transaction_id _ r
                (clean_data_NoDup df) Hr) as Honce.
  unfold clean_data in Hr.
  apply list_elem_of_fmap in Hr as (r0 & -> & Hr).
  apply list_elem_of_filter in Hr as [Hp Hr].
  apply list_elem_of_filter in Hr as [He _].
  unfold has_essentials in He. unfold price_in_range in Hp.
  apply andb_prop_elim in He as [He Hdistrict].
  apply andb_prop_elim in He as [He Hpostcode].
  apply andb_prop_elim in He as [Hprice Hdate].
  apply bool_decide_unpack in Hdistrict as [d Hd].
  apply bool_decide_unpack in Hpostcode.
  apply bool_decide_unpack in Hdate.
  simpl. repeat split; try done.
  - destruct (price r0) as [p|]; [| by destruct Hp]. exists p.
    apply andb_prop_elim in Hp as [H1%Is_true_true%Z.leb_le H2%Is_true_true%Z.leb_le].
    split; [done | lia].
  - rewrite Hd. by eexists.
Qed.

End CleanData.

Lemma clean_data_invariants_witness :
  let df :=
    [ RawRow (Some "{A1}") (Some 450000%Z) (Some "2023-05-02") (Some "NW1 8AB")
        (Some "F") (Some " Camden ") [];
      RawRow (Some "{A1}") (Some 450000%Z) (Some "2023-05-02") (Some "NW1 8AB")
        (Some "F") (Some " Camden ") [];
      RawRow (Some "{B2}") (Some 5000%Z) (Some "2023-06-01") (Some "EN5 1AA")
        (Some "D") (Some "BARNET") [];
      RawRow (Some "{C3}") (Some 900000%Z) (Some "not a date") (Some "EN5 1AA")
        (Some "D") (Some "BARNET") [];
      RawRow (Some "{D4}") (Some 900000%Z) (Some "2022-01-09") None
        (Some "D") (Some "BARNET") [] ] in
  let r :=
    Row (Some "{A1}") (Some 450000%Z)
      (Pandas.Timestamp (Pandas.Date 2023 5 2)) (Some "NW1 8AB") (Some "F")
      (Some "CAMDEN") [] (Some 2023%N) (Some 5%N) (Some 2%N) (Some "2023-05")
      (Some "Flat/Maisonette") (Some "Central") (Some "NW1")
      (Some "£250k-£500k") in
  clean_data IsoDates.to_datetime_coerce df = [r]
  ∧ r ∈ clean_data IsoDates.to_datetime_coerce df
  ∧ length (filter (λ r', transaction_id r' = transaction_id r)
              (clean_data IsoDates.to_datetime_coerce df)) = 1.
Proof.
  intros df r.
  assert (Hc : clean_data IsoDates.to_datetime_coerce df = [r])
    by (vm_compute; reflexivity).
  assert (Hr : r ∈ clean_data IsoDates.to_datetime_coerce df)
    by (rewrite Hc; apply elem_of_cons; by left).
  split; [exact Hc |]. split; [exact Hr |].
  exact (proj2 (proj2 (proj2 (proj2
           (clean_data_invariants IsoDates.to_datetime_coerce df r Hr))))).
Defined.

End HousingFacts.

(** ** The download script *)

Module DownloadFacts.
Import Download.

Section Script.

Variable requests_get : string → Py.result response.
Variable open_wb : string → bool.
Variable f_write : string → string → write_outcome.
Variable read_csv : string → Py.result nat.
Variable create_comprehensive_sample_data : M unit.

(** What [download_file] does, case by case: the request raises; the status
    is an error status; the file cannot be written; or all goes well. *)
Lemma download_file_cases url filename description w :
  download_file requests_get open_wb f_write url filename description w =
    let out := (stdout w ++ [Downloading description])%list in
    match requests_get url with
    | Py.Raises e =>
        (Py.Returns false, World (files w) (out ++ [DownloadError e]))
    | Py.Returns r =>
        if decide (400 ≤ status_code r < 600)%Z then
          (Py.Returns false,
           World (files w) (out ++ [DownloadError (Py.HTTPError (status_code r))]))
        else if open_wb (raw_path filename) then
          match f_write (raw_path filename) (content r) with
          | Written =>
              (Py.Returns true,
               World (<[raw_path filename := content r]> (files w))
                 (out ++ [Downloaded (String.length (content r))]))
          | WriteFailed left_on_disk =>
              (Py.Returns false,
               World (<[raw_path filename := left_on_disk]> (files w))
                 (out ++ [DownloadError Py.OSError]))
          end
        else
          (Py.Returns false, World (files w) (out ++ [DownloadError Py.OSError]))
    end.
Proof.
  unfold download_file, download_file_try, try_except, bind, lift, print,
    raise_for_status, write_file, ret, raise. simpl.
  destruct (requests_get url) as [r | e]; [| done].
  destruct (decide (400 ≤ status_code r < 600)%Z); [done |]. simpl.
  destruct (open_wb (raw_path filename)); [| done].
  by destruct (f_write (raw_path filename) (content r)).
Qed.

(** [download_file] always returns a boolean: no exception leaves it. *)
Lemma download_file_returns url filename description w :
  ∃ ok w', download_file requests_get open_wb f_write url filename description w
           = (Py.Returns ok, w').
Proof.
  rewrite download_file_cases. simpl.
  destruct (requests_get url) as [r | e]; [| eauto].
  destruct (decide (400 ≤ status_code r < 600)%Z); [eauto |].
  destruct (open_wb (raw_path filename)); [| eauto].
  destruct (f_write (raw_path filename) (content r)); eauto.
Qed.

Lemma download_loop_returns ds : ∀ success_count w,
  ∃ n w', download_loop requests_get open_wb f_write ds success_count w
          = (Py.Returns n, w').
Proof.
  induction ds as [|[[url filename] description] ds IH];
    intros success_count w; simpl.
  - unfold ret. eauto.
  - unfold bind at 1.
    destruct (download_file_returns url filename description w)
      as (ok & w' & ->).
    apply IH.
Qed.

Lemma download_ons_datasets_returns w :
  ∃ ons_success w', download_ons_datasets requests_get open_wb f_write w
                    = (Py.Returns ons_success, w').
Proof.
  unfold download_ons_datasets, bind at 1 2, print.
  match goal with
  | |- context [download_loop _ _ _ ?ds ?n ?w0] =>
      destruct (download_loop_returns ds n w0) as (k & w' & ->)
  end.
  unfold bind, print, ret. eauto.
Qed.

Lemma process_loop_returns fs : ∀ files_processed w,
  ∃ n w', process_loop read_csv fs files_processed w = (Py.Returns n, w').
Proof.
  induction fs as [|filename fs IH]; intros files_processed w; simpl.
  - unfold ret. eauto.
  - unfold bind at 1 2, path_exists.
    destruct (bool_decide (is_Some (files w !! raw_path filename))) eqn:Hex.
    + unfold try_except, bind at 1, read_file.
      destruct (files w !! raw_path filename) as [c |]; simpl.
      * unfold bind at 1, lift.
        destruct (read_csv c) as [rows | e]; simpl.
        -- destruct (bool_decide (0 < rows)); unfold bind, print, ret;
             simpl; apply IH.
        -- unfold bind, print, ret. simpl. apply IH.
      * unfold bind, print, ret. simpl. apply IH.
    + unfold ret at 1. apply IH.
Qed.

Lemma process_ons_downloads_returns w :
  ∃ n w', process_ons_downloads read_csv w = (Py.Returns n, w').
Proof.
  unfold process_ons_downloads, bind at 1 2, print.
  match goal with
  | |- context [process_loop _ ?fs ?n ?w0] =>
      destruct (process_loop_returns fs n w0) as (k & w' & ->)
  end.
  unfold bind. case_bool_decide; unfold print, ret; eauto.
Qed.

(** Whatever the downloads did, [main] reaches the call of
    [create_comprehensive_sample_data]. *)
Lemma main_reaches_sample_data w :
  ∃ ons_success w1 n w2,
    download_ons_datasets requests_get open_wb f_write w = (Py.Returns ons_success, w1)
    ∧ process_ons_downloads read_csv w1 = (Py.Returns n, w2)
    ∧ main requests_get open_wb f_write read_csv create_comprehensive_sample_data w
      = bind create_comprehensive_sample_data
          (λ _, bind (print (Banner "DOWNLOAD COMPLETE")) (λ _, print_summary))
          w2.
Proof.
  destruct (download_ons_datasets_returns w) as (b & w1 & H1).
  destruct (process_ons_downloads_returns w1) as (n & w2 & H2).
  exists b, w1, n, w2. split; [done |]. split; [done |].
  unfold main, bind at 1. rewrite H1. unfold bind at 1. by rewrite H2.
Qed.

(** C8, as the code has it.  When a download fails because the request
    raises (network error, timeout) or because the status is an HTTP error
    status (4xx or 5xx), [download_file] catches the exception, logs it and
    returns [False], leaving the files as they were; and whatever the
    downloads did, [main] goes on to run [create_comprehensive_sample_data]
    after them. *)
Theorem download_failure_caught_and_sample_data_run
    (url filename description : string) (e : Py.exn) (w : world) :
  (requests_get url = Py.Raises e
   ∨ ∃ r, requests_get url = Py.Returns r
          ∧ (400 ≤ status_code r < 600)%Z
          ∧ e = Py.HTTPError (status_code r)) →
  download_file requests_get open_wb f_write url filename description w
  = (Py.Returns false,
     World (files w)
       (stdout w ++ [Downloading description; DownloadError e]))
  ∧ ∀ w0, ∃ ons_success w1 n w2,
      download_ons_datasets requests_get open_wb f_write w0 = (Py.Returns ons_success, w1)
      ∧ process_ons_downloads read_csv w1 = (Py.Returns n, w2)
      ∧ main requests_get open_wb f_write read_csv create_comprehensive_sample_data w0
        = bind create_comprehensive_sample_data
            (λ _, bind (print (Banner "DOWNLOAD COMPLETE")) (λ _, print_summary))
            w2.
Proof.
  intros H. split; [| apply main_reaches_sample_data].
  rewrite download_file_cases. simpl.
  destruct H as [-> | (r & -> & Hr & ->)].
  - by rewrite <- (assoc_L (++)).
  - rewrite decide_True by done. by rewrite <- (assoc_L (++)).
Qed.

End Script.

(** A final status outside 2xx that is not an error status, here 304: the
    request raises nothing, the body is written and [download_file] returns
    [True]. *)
Lemma download_file_status_304_returns_true :
  let requests_get := λ _ : string, Py.Returns (Response 304 "") in
  let w := World ∅ [] in
  ¬ (200 ≤ 304 < 300)%Z
  ∧ download_file requests_get (λ _, true) (λ _ _, Written)
      "https://www.ons.gov.uk/generator?format=csv&uri=/economy/inflationandpriceindices/timeseries/d7g7/mm23"
      "cpi_annual_rate.csv" "CPI Annual Rate" w
    = (Py.Returns true,
       World {[ "../data/raw/cpi_annual_rate.csv" := "" ]}
         [Downloading "CPI Annual Rate"; Downloaded 0])
  ∧ fst (download_file requests_get (λ _, true) (λ _ _, Written)
           "https://www.ons.gov.uk/generator?format=csv&uri=/economy/inflationandpriceindices/timeseries/d7g7/mm23"
           "cpi_annual_rate.csv" "CPI Annual Rate" w)
    ≠ Py.Returns false.
Proof.
  intros requests_get w. split; [lia |].
  rewrite download_file_cases. simpl. split; [done | discriminate].
Qed.

Lemma download_failure_caught_and_sample_data_run_witness :
  let requests_get := λ _ : string, @Py.Raises response Py.Timeout in
  let w := World ∅ [] in
  (requests_get "https://www.ons.gov.uk/x" = Py.Raises Py.Timeout
   ∨ ∃ r, requests_get "https://www.ons.gov.uk/x" = Py.Returns r
          ∧ (400 ≤ status_code r < 600)%Z
          ∧ Py.Timeout = Py.HTTPError (status_code r))
  ∧ download_file requests_get (λ _, true) (λ _ _, Written)
      "https://www.ons.gov.uk/x"
      "cpi_annual_rate.csv" "CPI Annual Rate" w
    = (Py.Returns false,
       World ∅ [Downloading "CPI Annual Rate"; DownloadError Py.Timeout]).
Proof.
  intros requests_get w.
  assert (H : requests_get "https://www.ons.gov.uk/x" = Py.Raises Py.Timeout
              ∨ ∃ r, requests_get "https://www.ons.gov.uk/x" = Py.Returns r
                     ∧ (400 ≤ status_code r < 600)%Z
                     ∧ Py.Timeout = Py.HTTPError (status_code r))
    by (left; reflexivity).
  split; [exact H |].
  exact (proj1 (download_failure_caught_and_sample_data_run
                  requests_get (λ _, true) (λ _ _, Written)
                  (λ _, Py.Returns 0) (ret tt)
                  "https://www.ons.gov.uk/x" "cpi_annual_rate.csv"
                  "CPI Annual Rate" Py.Timeout w H)).
Defined.

(** A run of [main] in which every request times out: nothing is
    downloaded, and the sample data generator runs all the same. *)
Example main_all_downloads_fail :
  let create : M unit :=
    λ w, (Py.Returns tt,
          World (<["../data/raw/cpi_all_categories.csv" := "date,cpi"]> (files w))
            (stdout w ++ [Banner "Creating Comprehensive Dataset..."])) in
  let '(r, w') :=
    main (λ _, Py.Raises Py.Timeout) (λ _, true) (λ _ _, Written)
      (λ _, Py.Returns 0) create
      (World ∅ []) in
  r = Py.Returns tt
  ∧ files w' = {[ "../data/raw/cpi_all_categories.csv" := "date,cpi" ]}
  ∧ Banner "Creating Comprehensive Dataset..." ∈ stdout w'.
Proof. vm_compute. repeat split. set_solver. Qed.

End DownloadFacts.

(** ** More on the ONS date normalizer and its date stage *)

Module CostOfLivingMore.
Import PyStr PyStrFacts PandasFacts CostOfLiving CostOfLivingFacts.

#[local] Arguments append !_ _ / : simpl nomatch.

Section Parse.

Variable to_datetime : string → Py.result Pandas.datetime.

(** X1. White space does not matter to the lookup: with any white space
    before the first token, after the second and between the two, the
    result is the same as for the two tokens one space apart. *)
Theorem parse_ons_date_any_whitespace (ws1 year ws2 part1 ws3 mm : string) :
  token year →
  month_map !! upper part1 = Some mm →
  all isspace ws1 = true → all isspace ws2 = true → ws2 ≠ "" →
  all isspace ws3 = true →
  parse_ons_date to_datetime (ws1 +:+ year +:+ ws2 +:+ part1 +:+ ws3)
  = parse_ons_date to_datetime (year +:+ " " +:+ part1)
  ∧ parse_ons_date to_datetime (ws1 +:+ year +:+ ws2 +:+ part1 +:+ ws3)
    = Some (year +:+ "-" +:+ mm +:+ "-01").
Proof.
  intros Hy Hm H1 H2 H2' H3.
  rewrite (parse_two_tokens to_datetime ws1 year ws2 part1 ws3 mm) by done.
  by rewrite (parse_year_space_part to_datetime year part1 mm).
Qed.

(** X2. [parse_ons_date] returns [None] exactly when the lookup does not
    answer and the generic parser yields no timestamp: a [None] is never
    the answer of the lookup. *)
Theorem parse_ons_date_none_iff (s : string) :
  parse_ons_date to_datetime s = None ↔
    lookup_path (strip s) = None
    ∧ ∀ d, to_datetime (strip s) ≠ Py.Returns (Pandas.Timestamp d).
Proof.
  split.
  - intros Hn. destruct (lookup_path (strip s)) as [r|] eqn:Hl.
    + by rewrite (parse_lookup_hit to_datetime s r Hl) in Hn.
    + split; [done |]. intros d Hd.
      rewrite parse_lookup_miss in Hn by done. by rewrite Hd in Hn.
  - intros [Hl Hf]. rewrite parse_lookup_miss by done.
    destruct (to_datetime (strip s)) as [[d|]|e]; try done.
    by destruct (Hf d).
Qed.

(** X3. The date stage of [clean_ons_timeseries] keeps exactly the rows
    whose date parses, once each for every occurrence in the input and in
    the order of the input, each with its stripped date and its parsed
    date: the result is the input with the rows whose date does not parse
    left out, nothing added, nothing repeated and nothing else dropped. *)
Theorem clean_dates_exact (df : list ons_row) :
  clean_ons_timeseries_dates to_datetime df
  = omap (λ r, (λ date_clean, (strip_date r, date_clean))
                 <$> parse_ons_date to_datetime (ons_date r)) df
  ∧ fst <$> clean_ons_timeseries_dates to_datetime df
    = strip_date
        <$> filter (λ r, is_Some (parse_ons_date to_datetime (ons_date r))) df
  ∧ Forall (λ rd, parse_ons_date to_datetime (ons_date rd.1) = Some rd.2)
      (clean_ons_timeseries_dates to_datetime df)
  ∧ (∀ r date_clean,
      (r, date_clean) ∈ clean_ons_timeseries_dates to_datetime df ↔
        ∃ r0, r0 ∈ df ∧ r = strip_date r0
              ∧ parse_ons_date to_datetime (ons_date r0) = Some date_clean).
Proof.
  induction df as [|x df (IH0 & IH1 & IH2 & IH3)].
  - split; [done |]. split; [done |]. split; [by constructor |].
    intros r dc. split.
    + intros H. by apply elem_of_nil in H.
    + intros (r0 & H & _). by apply elem_of_nil in H.
  - rewrite clean_dates_cons, filter_cons. cbn [omap list_omap].
    destruct (parse_ons_date to_datetime (ons_date x)) as [dc0|] eqn:Hx.
    + rewrite decide_True by done. rewrite !fmap_cons.
      cbn [fmap option_fmap option_map fst].
      split; [by rewrite IH0 |]. split; [by rewrite IH1 |]. split.
      * constructor; [| done]. cbn [fst snd strip_date ons_date].
        by rewrite parse_strip.
      * intros r dc. rewrite elem_of_cons, IH3. split.
        -- intros [[= -> ->] | (r0 & Hr0 & -> & Hp)].
           ++ exists x. split; [by apply elem_of_cons; left | done].
           ++ exists r0. split; [by apply elem_of_cons; right | done].
        -- intros (r0 & [-> | Hr0]%elem_of_cons & -> & Hp).
           ++ left. rewrite Hx in Hp. by injection Hp as ->.
           ++ right. by exists r0.
    + rewrite decide_False by (by intros [? ?]).
      cbn [fmap option_fmap option_map].
      split; [done |]. split; [done |]. split; [done |].
      intros r dc. rewrite IH3. split.
      * intros (r0 & Hr0 & -> & Hp). exists r0.
        split; [by apply elem_of_cons; right | done].
      * intros (r0 & [-> | Hr0]%elem_of_cons & -> & Hp).
        -- by rewrite Hx in Hp.
        -- by exists r0.
Qed.

End Parse.

Lemma parse_ons_date_any_whitespace_witness :
  token "2023"
  ∧ month_map !! upper "mar" = Some "03"
  ∧ parse_ons_date IsoDates.to_datetime "  2023   mar "
    = Some "2023-03-01".
Proof.
  assert (H1 : token "2023") by (split; [discriminate | reflexivity]).
  assert (H2 : month_map !! upper "mar" = Some "03") by (vm_compute; reflexivity).
  split; [exact H1 |]. split; [exact H2 |].
  exact (proj2 (parse_ons_date_any_whitespace IsoDates.to_datetime
                  "  " "2023" "   " "mar" " " "03" H1 H2
                  eq_refl eq_refl ltac:(discriminate) eq_refl)).
Defined.

End CostOfLivingMore.

(** ** Reading an ONS file *)

Module OnsFileFacts.
Import PyStr PyStrFacts CostOfLiving CostOfLivingFacts OnsFile.

Lemma find_header_some lines : ∀ i k,
  find_header i lines = Some k →
  ∃ j, k = (i + j)%nat ∧ qualifies lines j
       ∧ ∀ j', (j' < j)%nat → ¬ qualifies lines j'.
Proof.
  induction lines as [|line rest IH]; intros i k Hf; simpl in Hf; [done |].
  destruct rest as [|next_line rest']; [done |].
  destruct (looks_like_header line && looks_like_data next_line) eqn:Hq.
  - injection Hf as <-. exists 0%nat. split; [lia |]. split.
    + by exists line, next_line.
    + intros j' Hj'. lia.
  - apply IH in Hf as (j & -> & (l & n & Hl & Hn & Hb) & Hmin).
    exists (S j). split; [lia |]. split.
    + by exists l, n.
    + intros [|j'] Hj' (l' & n' & Hl' & Hn' & Hb').
      * simpl in Hl', Hn'. injection Hl' as <-. injection Hn' as <-.
        by rewrite Hq in Hb'.
      * apply (Hmin j'); [lia |]. by exists l', n'.
Qed.

Lemma find_header_none lines : ∀ i,
  find_header i lines = None → ∀ j, ¬ qualifies lines j.
Proof.
  induction lines as [|line rest IH]; intros i Hf j (l & n & Hl & Hn & Hb).
  - done.
  - simpl in Hf. destruct rest as [|next_line rest'].
    + by destruct j.
    + destruct (looks_like_header line && looks_like_data next_line) eqn:Hq;
        [done |].
      destruct j as [|j].
      * simpl in Hl, Hn. injection Hl as <-. injection Hn as <-.
        by rewrite Hq in Hb.
      * apply (IH _ Hf j). by exists l, n.
Qed.

(** X4. [header_row] is the number of the first line that looks like a
    header and is followed by a line that looks like data: when some line
    passes the two tests, [header_row] is such a line and no earlier line
    is; it is 0 when there is no such line, and when it is not 0 it is not
    the last line of the file. *)
Theorem header_row_first_match (lines : list string) :
  (∀ j, qualifies lines j →
        qualifies lines (header_row lines)
        ∧ (header_row lines ≤ j)%nat
        ∧ ∀ j', (j' < header_row lines)%nat → ¬ qualifies lines j')
  ∧ ((∀ j, ¬ qualifies lines j) → header_row lines = 0%nat)
  ∧ (header_row lines = 0%nat ∨ qualifies lines (header_row lines))
  ∧ (header_row lines = 0%nat ∨ (S (header_row lines) < length lines)%nat).
Proof.
  unfold header_row.
  destruct (find_header 0 lines) as [k|] eqn:Hf; simpl.
  - apply find_header_some in Hf as (j & -> & Hq & Hmin). simpl.
    split; [| split; [| split]].
    + intros j' Hq'. split; [done |]. split; [| done].
      destruct (decide (j' < j)%nat) as [Hlt |]; [| lia].
      by destruct (Hmin j' Hlt).
    + intros Hno. by destruct (Hno j).
    + by right.
    + right. destruct Hq as (l & n & _ & Hn & _).
      by apply lookup_lt_Some in Hn.
  - split; [| split; [| split]]; [| done | by left | by left].
    intros j Hq. by destruct (find_header_none lines 0%nat Hf j).
Qed.

(** A file with two lines of metadata before the header: the header is
    line 2. *)
Example header_row_example :
  header_row ["Title"; ""; "Period,CPI"; "2023 JAN,4.0"; "2023 FEB,4.2"] = 2%nat
  ∧ qualifies ["Title"; ""; "Period,CPI"; "2023 JAN,4.0"; "2023 FEB,4.2"] 2.
Proof.
  split; [by vm_compute |].
  exists "Period,CPI", "2023 JAN,4.0". by vm_compute.
Qed.

Section SkipRows.

Context {frame : Type} (ncols nrows : frame → nat).
Variable read_csv : nat → Py.result frame.

Lemma try_skips_all_raise skips : ∀ df,
  (∀ s, s ∈ skips → ∃ e, read_csv s = Py.Raises e) →
  try_skips ncols nrows read_csv skips df = df.
Proof.
  induction skips as [|s skips IH]; intros df H; simpl; [done |].
  destruct (H s) as [e ->]; [by apply elem_of_cons; left |].
  apply IH. intros s' Hs'. apply H. by apply elem_of_cons; right.
Qed.

Lemma try_skips_skip_bad l1 : ∀ rest df,
  (∀ s d, s ∈ l1 → read_csv s = Py.Returns d →
          acceptable ncols nrows d = false) →
  ∃ df', try_skips ncols nrows read_csv (l1 ++ rest) df
         = try_skips ncols nrows read_csv rest df'.
Proof.
  induction l1 as [|s l1 IH]; intros rest df H; simpl; [by exists df |].
  assert (∀ s' d, s' ∈ l1 → read_csv s' = Py.Returns d →
                  acceptable ncols nrows d = false) as H'.
  { intros s' d Hs'. apply H. by apply elem_of_cons; right. }
  destruct (read_csv s) as [d | e] eqn:Hs.
  - rewrite (H s d) by (done || by apply elem_of_cons; left). by apply IH.
  - by apply IH.
Qed.

(** X5. The frame the skip loop settles on.  The first candidate whose
    frame has at least 2 columns and more than 10 rows wins; when no
    candidate passes the test, the frame of the last candidate that could be
    read is used all the same; and when no candidate can be read, no frame
    is bound. *)
Theorem try_skips_choice (l1 l2 : list nat) (skip : nat) (df : frame) :
  read_csv skip = Py.Returns df →
  (∀ s d, s ∈ l1 → read_csv s = Py.Returns d →
          acceptable ncols nrows d = false) →
  (acceptable ncols nrows df = true →
   try_skips ncols nrows read_csv (l1 ++ skip :: l2) None = Some df)
  ∧ ((∀ s, s ∈ l2 → ∃ e, read_csv s = Py.Raises e) →
     try_skips ncols nrows read_csv (l1 ++ skip :: l2) None = Some df)
  ∧ ((∀ s, s ∈ l1 → ∃ e, read_csv s = Py.Raises e) →
     try_skips ncols nrows read_csv l1 None = None).
Proof.
  intros Hskip Hbad.
  destruct (try_skips_skip_bad l1 (skip :: l2) None Hbad) as [df' ->].
  simpl. rewrite Hskip. split; [| split].
  - by intros ->.
  - intros Hraise. destruct (acceptable ncols nrows df); [done |].
    by apply try_skips_all_raise.
  - by apply try_skips_all_raise.
Qed.

End SkipRows.

Section Rows.

Context {V : Type}.
Variable to_datetime : string → Py.result Pandas.datetime.
Variable to_numeric : string → option V.
Variable to_datetime_column : list string → Py.result (list Pandas.datetime).
Variable sort_values : list (@ts_row V) → list (@ts_row V).

Lemma clean_values_elem (df : list (ons_row * string)) r date_clean v :
  (r, date_clean) ∈ df → to_numeric (ons_value r) = Some v →
  (date_clean, v) ∈ clean_values to_numeric df.
Proof.
  intros Hr Hv. unfold clean_values. apply list_elem_of_omap.
  exists (r, date_clean). split; [done |]. simpl. by rewrite Hv.
Qed.

(** X6. One row whose first token is not a date loses the whole file: when
    a row has a date of two tokens, the second in the month table, and a
    numeric value, its [date_clean] reaches the column conversion of line
    101; if that conversion raises on a column holding it,
    [clean_ons_timeseries] returns [None] whatever the other rows are. *)
Theorem unparseable_year_loses_file (df : list ons_row) (r0 : ons_row)
    (year part1 mm : string) (v : V) :
  r0 ∈ df →
  ons_date r0 = year +:+ " " +:+ part1 →
  token year →
  month_map !! upper part1 = Some mm →
  to_numeric (ons_value r0) = Some v →
  (∀ col, (year +:+ "-" +:+ mm +:+ "-01") ∈ col →
          ∃ e, to_datetime_column col = Py.Raises e) →
  clean_ons_timeseries_rows to_datetime to_numeric to_datetime_column
    sort_values df = None.
Proof.
  intros Hr0 Hdate Hy Hm Hv Hcol.
  unfold clean_ons_timeseries_rows, clean_ons_timeseries_try.
  set (dated := clean_ons_timeseries_dates to_datetime df).
  assert ((strip_date r0, year +:+ "-" +:+ mm +:+ "-01") ∈ dated) as Hin.
  { unfold dated, clean_ons_timeseries_dates, Pandas.dropna.
    apply list_elem_of_omap. exists (strip_date r0).
    split; [by apply list_elem_of_fmap_2 |].
    cbn beta. cbn [ons_date strip_date]. rewrite parse_strip, Hdate.
    by rewrite (parse_year_space_part to_datetime year part1 mm). }
  pose proof (clean_values_elem dated _ _ v Hin Hv) as Hin'.
  destruct (Hcol (fst <$> clean_values to_numeric dated)) as [e ->]; [| done].
  apply list_elem_of_fmap. by exists (year +:+ "-" +:+ mm +:+ "-01", v).
Qed.

End Rows.

Lemma try_skips_choice_witness :
  let read_csv := λ skip : nat,
    match skip with
    | 0 => Py.Returns (1, 3)
    | 7 => Py.Returns (2, 120)
    | _ => Py.Raises Py.ParserError
    end%nat in
  read_csv 7%nat = Py.Returns (2, 120)%nat
  ∧ (∀ s d, s ∈ [0%nat] → read_csv s = Py.Returns d →
            acceptable fst snd d = false)
  ∧ try_skips fst snd read_csv [0; 7; 8; 6; 5]%nat None = Some (2, 120)%nat.
Proof.
  intros read_csv.
  assert (H1 : read_csv 7%nat = Py.Returns (2, 120)%nat) by reflexivity.
  assert (H2 : ∀ s d, s ∈ [0%nat] → read_csv s = Py.Returns d →
                      acceptable fst snd d = false).
  { intros s d Hs%list_elem_of_singleton Hd. subst s.
    injection Hd as <-. reflexivity. }
  split; [exact H1 |]. split; [exact H2 |].
  exact (proj1 (try_skips_choice fst snd read_csv [0%nat] [8; 6; 5]%nat 7%nat
                  (2, 120)%nat H1 H2) eq_refl).
Defined.

(** The reference column parser raises as soon as one cell does. *)
Lemma iso_column_raises (col : list string) (s : string) (e : Py.exn) :
  s ∈ col → IsoDates.to_datetime s = Py.Raises e →
  ∃ e', IsoColumns.to_datetime_column col = Py.Raises e'.
Proof.
  induction col as [|x col IH]; intros Hs He.
  - by apply elem_of_nil in Hs.
  - simpl. apply elem_of_cons in Hs as [<- | Hs].
    + rewrite He. simpl. by eexists.
    + destruct (IsoDates.to_datetime x) as [t | e0]; simpl; [| by eexists].
      destruct (IH Hs He) as [e' ->]. simpl. by eexists.
Qed.

Lemma unparseable_year_loses_file_witness :
  let to_numeric := λ s : string, if decide (s = "") then None else Some s in
  let df := [OnsRow "2023 JAN" "4.0"; OnsRow "garbage JAN" "5.1";
             OnsRow "2023 FEB" "4.2"] in
  clean_ons_timeseries_dates IsoDates.to_datetime df
  = [(OnsRow "2023 JAN" "4.0", "2023-01-01");
     (OnsRow "garbage JAN" "5.1", "garbage-01-01");
     (OnsRow "2023 FEB" "4.2", "2023-02-01")]
  ∧ clean_ons_timeseries_rows IsoDates.to_datetime to_numeric
      IsoColumns.to_datetime_column (λ rows, rows) df = None.
Proof.
  intros to_numeric df. split; [vm_compute; reflexivity |].
  assert (H1 : OnsRow "garbage JAN" "5.1" ∈ df)
    by (apply elem_of_cons; right; apply elem_of_cons; by left).
  assert (H2 : token "garbage") by (split; [discriminate | reflexivity]).
  assert (H3 : month_map !! upper "JAN" = Some "01") by (vm_compute; reflexivity).
  assert (H4 : ∀ col, "garbage-01-01" ∈ col →
                      ∃ e, IsoColumns.to_datetime_column col = Py.Raises e).
  { intros col Hc.
    apply (iso_column_raises col "garbage-01-01" Py.ParserError Hc).
    vm_compute; reflexivity. }
  exact (unparseable_year_loses_file IsoDates.to_datetime to_numeric
           IsoColumns.to_datetime_column (λ rows, rows) df
           (OnsRow "garbage JAN" "5.1") "garbage" "JAN" "01" "5.1"
           H1 eq_refl H2 H3 eq_refl H4).
Defined.

End OnsFileFacts.

(** ** The inflation regimes *)

Module MetricsFacts.
Import Metrics.

Lemma lt_const_mono (x y : pyfloat) (c : Z) :
  float_le x y → lt_const y c = true → lt_const x c = true.
Proof.
  destruct x as [| |p|], y as [| |q|]; simpl; try done.
  intros Hle Hq%bool_decide_eq_true. apply bool_decide_eq_true.
  by apply Qcle_lt_trans with q.
Qed.

Lemma float_le_not_na_l (x y : pyfloat) : float_le x y → isna x = false.
Proof. by destruct x, y. Qed.

Lemma float_le_not_na_r (x y : pyfloat) : float_le x y → isna y = false.
Proof. by destruct x, y. Qed.

Ltac rank_leaf :=
  eexists _, _; split; [reflexivity | split; [reflexivity | lia]].

(** X7. [classify_inflation] is monotone: of two rates that are not null,
    the higher one never gets a lower regime on the scale Deflation, Very
    Low, Below Target, On Target, Elevated, High, Very High. *)
Theorem classify_inflation_monotone (x y : pyfloat) :
  float_le x y →
  ∃ a b, severity (classify_inflation x) = Some a
         ∧ severity (classify_inflation y) = Some b
         ∧ (a ≤ b)%nat.
Proof.
  intros Hle. pose proof (λ c, lt_const_mono x y c Hle) as Hm.
  unfold classify_inflation.
  rewrite (float_le_not_na_l x y Hle), (float_le_not_na_r x y Hle).
  destruct (lt_const y 0) eqn:Y0; [rewrite (Hm _ Y0); rank_leaf |].
  destruct (lt_const y 1) eqn:Y1;
    [rewrite (Hm _ Y1); destruct (lt_const x 0); rank_leaf |].
  destruct (lt_const y 2) eqn:Y2;
    [rewrite (Hm _ Y2); destruct (lt_const x 0), (lt_const x 1); rank_leaf |].
  destruct (lt_const y 3) eqn:Y3;
    [rewrite (Hm _ Y3);
     destruct (lt_const x 0), (lt_const x 1), (lt_const x 2); rank_leaf |].
  destruct (lt_const y 5) eqn:Y5;
    [rewrite (Hm _ Y5);
     destruct (lt_const x 0), (lt_const x 1), (lt_const x 2), (lt_const x 3);
     rank_leaf |].
  destruct (lt_const y 10) eqn:Y10;
    [rewrite (Hm _ Y10);
     destruct (lt_const x 0), (lt_const x 1), (lt_const x 2), (lt_const x 3),
       (lt_const x 5); rank_leaf |].
  destruct (lt_const x 0), (lt_const x 1), (lt_const x 2), (lt_const x 3),
    (lt_const x 5), (lt_const x 10); rank_leaf.
Qed.

Lemma classify_inflation_monotone_witness :
  float_le (Finite (Qc_of_Z 2)) (Finite (Qc_of_Z 11))
  ∧ classify_inflation (Finite (Qc_of_Z 2)) = "On Target"
  ∧ classify_inflation (Finite (Qc_of_Z 11)) = "Very High"
  ∧ ∃ a b, severity (classify_inflation (Finite (Qc_of_Z 2))) = Some a
           ∧ severity (classify_inflation (Finite (Qc_of_Z 11))) = Some b
           ∧ (a ≤ b)%nat.
Proof.
  assert (H : float_le (Finite (Qc_of_Z 2)) (Finite (Qc_of_Z 11))).
  { apply (proj1 (Z2Qc_inj_le 2 11)). lia. }
  split; [exact H |]. split; [vm_compute; reflexivity |].
  split; [vm_compute; reflexivity |].
  exact (classify_inflation_monotone _ _ H).
Defined.

Lemma gt_lt_const (rate : pyfloat) (a b : Z) :
  (b ≤ a)%Z → gt_const rate a = true → lt_const rate b = false.
Proof.
  intros Hab. destruct rate as [| |q|]; simpl; try done.
  intros Hgt%bool_decide_eq_true. apply bool_decide_eq_false. intros Hlt.
  assert (Qc_of_Z a < Qc_of_Z b)%Qc as H%Z2Qc_inj_lt by by apply Qclt_trans with q.
  lia.
Qed.

Lemma not_lt_gt_const (rate : pyfloat) (a b : Z) :
  (a < b)%Z → isna rate = false → lt_const rate b = false →
  gt_const rate a = true.
Proof.
  intros Hab. destruct rate as [| |q|]; simpl; try done.
  intros _ Hlt%bool_decide_eq_false. apply bool_decide_eq_true.
  apply Qclt_le_trans with (Qc_of_Z b); [exact (proj1 (Z2Qc_inj_lt a b) Hab) |].
  by apply Qcnot_lt_le.
Qed.

(** X8. The flag [above_target] and the regime agree except at the target
    itself: a rate flagged above target is at least On Target, a rate whose
    regime is Elevated or higher is flagged, and the rate 2.0 is On Target
    without being flagged. *)
Theorem above_target_regime (rate : pyfloat) :
  (above_target rate = true →
   ∃ a, severity (classify_inflation rate) = Some a ∧ (3 ≤ a)%nat)
  ∧ (∀ a, severity (classify_inflation rate) = Some a → (4 ≤ a)%nat →
          above_target rate = true)
  ∧ classify_inflation (Finite (Qc_of_Z 2)) = "On Target"
  ∧ above_target (Finite (Qc_of_Z 2)) = false.
Proof.
  split; [| split; [| split; by vm_compute]].
  - unfold above_target. intros Hgt. unfold classify_inflation.
    assert (isna rate = false) as -> by by destruct rate.
    rewrite !(gt_lt_const rate 2) by (done || lia).
    destruct (lt_const rate 3), (lt_const rate 5), (lt_const rate 10);
      eexists; (split; [reflexivity | lia]).
  - intros a. unfold classify_inflation, above_target.
    destruct (isna rate) eqn:Hna; [by vm_compute |].
    destruct (lt_const rate 0); [vm_compute; intros [= <-]; lia |].
    destruct (lt_const rate 1); [vm_compute; intros [= <-]; lia |].
    destruct (lt_const rate 2); [vm_compute; intros [= <-]; lia |].
    destruct (lt_const rate 3) eqn:H3; [vm_compute; intros [= <-]; lia |].
    intros _ _. by apply (not_lt_gt_const rate 2 3).
Qed.

End MetricsFacts.

(** ** More on the download script *)

Module DownloadMore.
Import Download DownloadFacts DownloadOutcome.

Section Script.

Variable requests_get : string → Py.result response.
Variable open_wb : string → bool.
Variable f_write : string → string → write_outcome.
Variable read_csv : string → Py.result nat.

Lemma after_attempt_lookup_eq a path (fs : gmap string string) :
  after_attempt a path fs !! path
  = match a with
    | Stored body => Some body
    | Spoiled left_on_disk => Some left_on_disk
    | Untouched => fs !! path
    end.
Proof. destruct a; simpl; [apply lookup_insert_eq .. | done]. Qed.

Lemma after_attempt_lookup_ne a path path' (fs : gmap string string) :
  path ≠ path' → after_attempt a path fs !! path' = fs !! path'.
Proof. intros Hne. destruct a; simpl; [by apply lookup_insert_ne .. | done]. Qed.

(** One attempt, by its outcome. *)
Lemma download_file_outcome url filename description w :
  ∃ out,
    download_file requests_get open_wb f_write url filename description w
    = (Py.Returns (succeeds requests_get open_wb f_write
                     (url, filename, description)),
       World (after_attempt
                (attempt_of requests_get open_wb f_write
                   (url, filename, description))
                (raw_path filename) (files w))
         (stdout w ++ out)).
Proof.
  rewrite download_file_cases. unfold succeeds, attempt_of. simpl.
  destruct (requests_get url) as [r | e].
  - destruct (decide (400 ≤ status_code r < 600)%Z) as [Hs | Hs].
    + rewrite bool_decide_eq_true_2 by done. simpl.
      rewrite <- (assoc_L (++)). by eexists.
    + rewrite bool_decide_eq_false_2 by done.
      destruct (open_wb (raw_path filename)).
      * destruct (f_write (raw_path filename) (content r)); simpl;
          rewrite <- (assoc_L (++)); by eexists.
      * simpl. rewrite <- (assoc_L (++)). by eexists.
  - simpl. rewrite <- (assoc_L (++)). by eexists.
Qed.

Lemma download_loop_count ds : ∀ n w,
  fst (download_loop requests_get open_wb f_write ds n w)
  = Py.Returns
      (n + length (filter (λ d, succeeds requests_get open_wb f_write d) ds))%nat.
Proof.
  induction ds as [|[[url filename] description] ds IH]; intros n w; simpl.
  - unfold ret. simpl. f_equal. lia.
  - unfold bind at 1.
    destruct (download_file_outcome url filename description w) as [out ->].
    rewrite IH, filter_cons.
    destruct (succeeds requests_get open_wb f_write (url, filename, description))
      eqn:Hs; simpl; f_equal; simpl; lia.
Qed.

(** X9. [download_ons_datasets] never raises and returns [True] exactly
    when at least one of the seven datasets was downloaded to the end: its
    request returned, its status was no error status, its file opened and
    the write completed. *)
Theorem download_ons_datasets_success (w : world) :
  ∃ ons_success w',
    download_ons_datasets requests_get open_wb f_write w
    = (Py.Returns ons_success, w')
    ∧ (ons_success = true ↔
         ∃ ds, ds ∈ datasets
               ∧ ∃ r, requests_get ds.1.1 = Py.Returns r
                      ∧ ¬ (400 ≤ status_code r < 600)%Z
                      ∧ open_wb (raw_path ds.1.2) = true
                      ∧ f_write (raw_path ds.1.2) (content r) = Written).
Proof.
  unfold download_ons_datasets, bind at 1 2, print.
  set (w0 := {| files := files w; stdout := _ |}).
  pose proof (download_loop_count datasets 0 w0) as Hc.
  destruct (download_loop requests_get open_wb f_write datasets 0 w0)
    as [r w1] eqn:Hl.
  simpl in Hc. subst r. unfold bind, print, ret. simpl.
  eexists _, _. split; [done |].
  rewrite bool_decide_eq_true.
  set (ok := filter _ datasets).
  assert (∀ ds, succeeds requests_get open_wb f_write ds = true ↔
                ∃ r, requests_get ds.1.1 = Py.Returns r
                     ∧ ¬ (400 ≤ status_code r < 600)%Z
                     ∧ open_wb (raw_path ds.1.2) = true
                     ∧ f_write (raw_path ds.1.2) (content r) = Written)
    as Hsucc.
  { intros ds. unfold succeeds, attempt_of.
    destruct (requests_get ds.1.1) as [r | e].
    - case_bool_decide as Hs.
      + split; [done |]. intros (r' & [= <-] & Hn & _). by destruct Hn.
      + destruct (open_wb (raw_path ds.1.2)) eqn:Ho.
        * destruct (f_write (raw_path ds.1.2) (content r)) eqn:Hw.
          -- split; [| done]. intros _. by exists r.
          -- split; [done |]. intros (r' & [= <-] & _ & _ & Hw').
             by rewrite Hw in Hw'.
        * split; [done |]. by intros (r' & _ & _ & ? & _).
    - split; [done |]. by intros (r' & ? & _). }
  split.
  - intros Hlen. destruct ok as [|ds ok'] eqn:Hok; [simpl in Hlen; lia |].
    assert (ds ∈ ok) as Hin by (rewrite Hok; by apply elem_of_cons; left).
    apply list_elem_of_filter in Hin as [Hs Hin]. exists ds.
    split; [done |]. by apply Hsucc, Is_true_true.
  - intros (ds & Hin & Hs).
    assert (ds ∈ ok) as Hok.
    { apply list_elem_of_filter. split; [| done].
      by apply Is_true_true, Hsucc. }
    destruct ok; [by apply elem_of_nil in Hok | simpl; lia].
Qed.

(** The files after the loop: a path no dataset writes keeps its content. *)
Lemma download_loop_other_files ds : ∀ n w path,
  (∀ d, d ∈ ds → path ≠ raw_path d.1.2) →
  files (snd (download_loop requests_get open_wb f_write ds n w)) !! path
  = files w !! path.
Proof.
  induction ds as [|[[url filename] description] ds IH]; intros n w path Hp;
    simpl; [done |].
  unfold bind at 1.
  destruct (download_file_outcome url filename description w) as [out ->].
  rewrite IH by (intros d Hd; apply Hp; by apply elem_of_cons; right).
  simpl. apply after_attempt_lookup_ne. intros Heq.
  apply (Hp (url, filename, description)); [by apply elem_of_cons; left | done].
Qed.

Lemma download_loop_own_file ds : ∀ n w d,
  NoDup ((λ d, d.1.2) <$> ds) → d ∈ ds →
  files (snd (download_loop requests_get open_wb f_write ds n w))
    !! raw_path d.1.2
  = match attempt_of requests_get open_wb f_write d with
    | Stored body => Some body
    | Spoiled left_on_disk => Some left_on_disk
    | Untouched => files w !! raw_path d.1.2
    end.
Proof.
  induction ds as [|[[url filename] description] ds IH]; intros n w d Hnd Hd.
  - by apply elem_of_nil in Hd.
  - rewrite fmap_cons in Hnd. apply NoDup_cons in Hnd as [Hfresh Hnd].
    simpl. unfold bind at 1.
    destruct (download_file_outcome url filename description w) as [out ->].
    apply elem_of_cons in Hd as [-> | Hd].
    + rewrite download_loop_other_files.
      * simpl. apply after_attempt_lookup_eq.
      * intros d' Hd' Heq. apply Hfresh. simpl in *.
        unfold raw_path in Heq. apply (inj (String.app _)) in Heq.
        rewrite Heq. by apply (list_elem_of_fmap_2 (λ d, d.1.2)).
    + rewrite IH by done. simpl.
      destruct (attempt_of requests_get open_wb f_write d); try done.
      apply after_attempt_lookup_ne. intros Heq. apply Hfresh.
      unfold raw_path in Heq. apply (inj (String.app _)) in Heq. simpl.
      rewrite Heq. by apply (list_elem_of_fmap_2 (λ d, d.1.2)).
Qed.

Lemma datasets_NoDup : NoDup ((λ d : string * string * string, d.1.2) <$> datasets).
Proof. apply (bool_decide_unpack _). by vm_compute. Qed.

(** X10. After [download_ons_datasets], the file of every dataset that was
    downloaded to the end holds the body of its response; the file of a
    dataset whose attempt failed before the file was opened (the request
    raised, the status was an error status, or [open] raised) is as it was
    before; the file of a dataset whose write did not complete holds what
    the failed write left, the earlier copy being lost; and no other file is
    touched. *)
Theorem download_ons_datasets_files (w : world) :
  let w' := snd (download_ons_datasets requests_get open_wb f_write w) in
  (∀ ds, ds ∈ datasets →
     files w' !! raw_path ds.1.2
     = match attempt_of requests_get open_wb f_write ds with
       | Stored body => Some body
       | Spoiled left_on_disk => Some left_on_disk
       | Untouched => files w !! raw_path ds.1.2
       end)
  ∧ (∀ path, (∀ ds, ds ∈ datasets → path ≠ raw_path ds.1.2) →
       files w' !! path = files w !! path).
Proof.
  unfold download_ons_datasets, bind at 1 2, print.
  set (w0 := {| files := files w; stdout := _ |}).
  assert (∀ path,
    files (snd (let (r, w'0) :=
                  download_loop requests_get open_wb f_write datasets 0 w0 in
                match r with
                | Py.Returns a =>
                    bind (print (DownloadedCount a (length datasets)))
                      (λ _, ret (bool_decide (0 < a))) w'0
                | Py.Raises e => (Py.Raises e, w'0)
                end)) !! path
    = files (snd (download_loop requests_get open_wb f_write datasets 0 w0))
        !! path)
    as Hsame.
  { intros path.
    destruct (download_loop requests_get open_wb f_write datasets 0 w0)
      as [[a | e] w1]; done. }
  split.
  - intros ds Hds. rewrite Hsame.
    by rewrite (download_loop_own_file datasets 0 w0 ds datasets_NoDup Hds).
  - intros path Hp. rewrite Hsame. by rewrite download_loop_other_files.
Qed.

(** One file of [process_ons_downloads]. *)
Lemma process_step filename n w :
  ∃ out,
    (if bool_decide (is_Some (files w !! raw_path filename))
     then
       try_except
         (bind (read_file (raw_path filename)) (λ c,
          bind (lift (read_csv c)) (λ rows,
          if bool_decide (0 < rows)
          then bind (print (Processed filename rows)) (λ _, ret (S n))
          else ret n)))
         (λ e, bind (print (CouldNotProcess filename e)) (λ _, ret n))
     else ret n) w
    = (Py.Returns (if processable read_csv (files w) filename then S n else n),
       World (files w) (stdout w ++ out)).
Proof.
  unfold processable, try_except, bind, read_file, lift, print, ret.
  destruct (files w !! raw_path filename) as [c |] eqn:Hc; simpl;
    rewrite ?Hc; simpl.
  - destruct (read_csv c) as [rows | e]; simpl.
    + destruct (bool_decide (0 < rows)); simpl.
      * by eexists.
      * exists []. rewrite app_nil_r. by destruct w.
    + by eexists.
  - exists []. rewrite app_nil_r. by destruct w.
Qed.

(** The loop of [process_ons_downloads]: it counts and leaves the files. *)
Lemma process_loop_spec fs : ∀ n w,
  ∃ out,
    process_loop read_csv fs n w
    = (Py.Returns (n + length (filter (λ f, processable read_csv (files w) f) fs))%nat,
       World (files w) (stdout w ++ out)).
Proof.
  induction fs as [|filename fs IH]; intros n w; simpl.
  - exists []. unfold ret. rewrite app_nil_r, Nat.add_0_r. by destruct w.
  - unfold bind at 1, path_exists. unfold bind at 1.
    destruct (process_step filename n w) as [out1 ->].
    match goal with
    | |- context [process_loop read_csv fs ?n' ?w'] =>
        destruct (IH n' w') as [out2 ->]
    end.
    simpl. rewrite <- (assoc_L (++)). exists (out1 ++ out2)%list.
    rewrite filter_cons.
    destruct (processable read_csv (files w) filename); simpl;
      f_equal; f_equal; lia.
Qed.

(** X11. [process_ons_downloads] only reads: it leaves every file as it
    was, never raises, and returns the number of the five ONS files that
    are on disk and in which [read_csv] finds at least one row (a file that
    cannot be read is skipped); when that number is 0 its last line says
    that no ONS file was processed. *)
Theorem process_ons_downloads_reads_only (w : world) :
  ∃ w',
    process_ons_downloads read_csv w
    = (Py.Returns (length (filter (λ f, processable read_csv (files w) f)
                             ons_files)), w')
    ∧ files w' = files w
    ∧ (length (filter (λ f, processable read_csv (files w) f) ons_files) ≤ 5)%nat
    ∧ (length (filter (λ f, processable read_csv (files w) f) ons_files) = 0%nat
       → last (stdout w') = Some NoOnsFiles).
Proof.
  unfold process_ons_downloads, bind at 1 2, print.
  set (w0 := {| files := files w; stdout := _ |}).
  destruct (process_loop_spec ons_files 0 w0) as [out ->]. simpl.
  set (n := length _). unfold bind. case_bool_decide as Hn.
  - unfold print, ret. simpl. eexists. split; [done |]. split; [done |].
    split; [| intros _; simpl; by rewrite last_snoc].
    etrans; [apply length_filter | done].
  - unfold ret. simpl. eexists. split; [done |]. split; [done |].
    split; [| done]. etrans; [apply length_filter | done].
Qed.

End Script.

(** A write that stops after the first three bytes: [download_file] returns
    [False], and the copy that was on disk is replaced by what the write
    left. *)
Example download_file_interrupted_write :
  let requests_get := λ _ : string, Py.Returns (Response 200 "a,b,c") in
  let f_write := λ _ _ : string, WriteFailed "a,b" in
  let w := World {[ "../data/raw/cpih_index.csv" := "earlier copy" ]} [] in
  download_file requests_get (λ _, true) f_write
    "https://www.ons.gov.uk/x" "cpih_index.csv" "CPIH Index" w
  = (Py.Returns false,
     World {[ "../data/raw/cpih_index.csv" := "a,b" ]}
       [Downloading "CPIH Index"; DownloadError Py.OSError]).
Proof.
  intros requests_get f_write w.
  unfold download_file, download_file_try, try_except, bind, print, lift,
    raise_for_status, write_file, ret, raw_path, w. simpl.
  by do 2 f_equal.
Qed.

End DownloadMore.

(** ** More on the housing cleaning script *)

Module HousingMore.
Import PyStr PyStrFacts Housing HousingFacts.

#[local] Arguments append !_ _ / : simpl nomatch.

Section DropDuplicates.

Context {A K : Type} `{EqDecision K} (key : A → K).

Lemma drop_duplicates_go_sublist (df : list A) : ∀ seen,
  drop_duplicates_go key seen df `sublist_of` df.
Proof.
  induction df as [|x df IH]; intros seen; simpl; [done |].
  case_bool_decide; [by apply sublist_cons | by apply sublist_skip].
Qed.

Lemma drop_duplicates_go_first (l1 : list A) : ∀ seen r l2,
  key r ∉ seen → key r ∉ key <$> l1 →
  r ∈ drop_duplicates_go key seen (l1 ++ r :: l2).
Proof.
  induction l1 as [|x l1 IH]; intros seen r l2 Hs Hl; simpl.
  - rewrite bool_decide_eq_false_2 by done. by apply elem_of_cons; left.
  - rewrite fmap_cons in Hl. apply not_elem_of_cons in Hl as [Hne Hl].
    case_bool_decide.
    + by apply IH.
    + apply elem_of_cons; right. apply IH; [| done].
      apply not_elem_of_cons. split; [done | done].
Qed.

Lemma drop_duplicates_go_keys (df : list A) : ∀ seen r,
  r ∈ df → key r ∈ seen ∨ key r ∈ key <$> drop_duplicates_go key seen df.
Proof.
  induction df as [|x df IH]; intros seen r Hr; simpl.
  - by apply elem_of_nil in Hr.
  - apply elem_of_cons in Hr as [-> | Hr].
    + case_bool_decide; [by left |]. right. rewrite fmap_cons.
      by apply elem_of_cons; left.
    + case_bool_decide.
      * by apply IH.
      * destruct (IH (key x :: seen) r Hr) as [[-> | Hs]%elem_of_cons | Hk].
        -- right. rewrite fmap_cons. by apply elem_of_cons; left.
        -- by left.
        -- right. rewrite fmap_cons. by apply elem_of_cons; right.
Qed.

Lemma drop_duplicates_go_idemp (df : list A) : ∀ seen,
  drop_duplicates_go key seen (drop_duplicates_go key seen df)
  = drop_duplicates_go key seen df.
Proof.
  induction df as [|x df IH]; intros seen; simpl; [done |].
  case_bool_decide as Hx; [by apply IH |].
  simpl. rewrite bool_decide_eq_false_2 by done. by rewrite IH.
Qed.

(** X12. [drop_duplicates] keeps the rows in their order, keeps the first
    row of every key, loses no key, and changes nothing when run again. *)
Theorem drop_duplicates_keeps_first (df : list A) :
  drop_duplicates key df `sublist_of` df
  ∧ (∀ l1 r l2, df = (l1 ++ r :: l2)%list → key r ∉ key <$> l1 →
                r ∈ drop_duplicates key df)
  ∧ (∀ r, r ∈ df → key r ∈ key <$> drop_duplicates key df)
  ∧ drop_duplicates key (drop_duplicates key df) = drop_duplicates key df.
Proof.
  unfold drop_duplicates. split; [| split; [| split]].
  - apply drop_duplicates_go_sublist.
  - intros l1 r l2 -> Hl. apply drop_duplicates_go_first; [| done].
    apply not_elem_of_nil.
  - intros r Hr.
    destruct (drop_duplicates_go_keys df [] r Hr) as [Hs | Hk]; [| done].
    by apply elem_of_nil in Hs.
  - apply drop_duplicates_go_idemp.
Qed.

End DropDuplicates.

(** The cell clean-up of line 123. *)
Lemma upper_char_idemp c : upper_char (upper_char c) = upper_char c.
Proof. by destruct c as [[] [] [] [] [] [] [] []]. Qed.

Lemma upper_idemp s : upper (upper s) = upper s.
Proof.
  induction s as [|c s IH]; simpl; [done |].
  by rewrite upper_char_idemp, IH.
Qed.

Lemma upper_lstrip s : upper (lstrip s) = lstrip (upper s).
Proof.
  induction s as [|c s IH]; simpl; [done |].
  rewrite isspace_upper_char. by destruct (isspace c).
Qed.

Lemma upper_rstrip s : upper (rstrip s) = rstrip (upper s).
Proof.
  induction s as [|c s IH]; simpl; [done |].
  rewrite <- IH, isspace_upper_char.
  destruct (rstrip s); simpl; [by destruct (isspace c) | done].
Qed.

Lemma upper_strip s : upper (strip s) = strip (upper s).
Proof. unfold strip. by rewrite upper_rstrip, upper_lstrip. Qed.

(** The longest-prefix reader of the postcode pattern. *)
Lemma take_upto_spec n p : ∀ s t r,
  take_upto n p s = (t, r) →
  s = t +:+ r ∧ (String.length t ≤ n)%nat ∧ all p t = true.
Proof.
  induction n as [|n IH]; intros s t r H; simpl in H.
  - injection H as <- <-. simpl. split; [done | split; [lia | done]].
  - destruct s as [|c s]; [injection H as <- <-; simpl; split; [done | split; [lia | done]] |].
    destruct (p c) eqn:Hc.
    + destruct (take_upto n p s) as [t' r'] eqn:Ht. injection H as <- <-.
      destruct (IH s t' r' Ht) as (-> & Hlen & Hall).
      simpl. rewrite Hc, Hall. split; [done | split; [lia | done]].
    + injection H as <- <-. simpl. split; [done | split; [lia | done]].
Qed.

Lemma length_pos_nonempty (s : string) : s ≠ "" → (1 ≤ String.length s)%nat.
Proof. destruct s; [done | simpl; lia]. Qed.

(** X16. The postcode district, when the pattern matches, is the start of
    the postcode: one or two capitals, then one or two digits, then at most
    one capital, so between 2 and 5 characters; whatever follows is left
    out. *)
Theorem extract_postcode_district_prefix (postcode pd : string) :
  extract_postcode_district postcode = Some pd →
  ∃ letters digits suffix rest,
    pd = letters +:+ digits +:+ suffix
    ∧ postcode = pd +:+ rest
    ∧ (1 ≤ String.length letters ≤ 2)%nat ∧ all isupper letters = true
    ∧ (1 ≤ String.length digits ≤ 2)%nat ∧ all isdigit digits = true
    ∧ (String.length suffix ≤ 1)%nat ∧ all isupper suffix = true.
Proof.
  unfold extract_postcode_district.
  destruct (take_upto 2 isupper postcode) as [letters r1] eqn:H1.
  case_decide as Hl; [done |].
  destruct (take_upto 2 isdigit r1) as [digits r2] eqn:H2.
  case_decide as Hd; [done |].
  destruct (take_upto 1 isupper r2) as [suffix rest] eqn:H3.
  intros [= <-].
  apply take_upto_spec in H1 as (-> & Hl1 & Hl2).
  apply take_upto_spec in H2 as (-> & Hd1 & Hd2).
  apply take_upto_spec in H3 as (-> & Hs1 & Hs2).
  exists letters, digits, suffix, rest.
  pose proof (length_pos_nonempty _ Hl). pose proof (length_pos_nonempty _ Hd).
  repeat split; try done; try lia.
  by rewrite !app_assoc.
Qed.

Lemma extract_postcode_district_prefix_witness :
  extract_postcode_district "SW1A 1AA" = Some "SW1A"
  ∧ ∃ letters digits suffix rest,
      "SW1A" = letters +:+ digits +:+ suffix
      ∧ "SW1A 1AA" = "SW1A" +:+ rest
      ∧ (1 ≤ String.length letters ≤ 2)%nat ∧ all isupper letters = true
      ∧ (1 ≤ String.length digits ≤ 2)%nat ∧ all isdigit digits = true
      ∧ (String.length suffix ≤ 1)%nat ∧ all isupper suffix = true.
Proof.
  assert (H : extract_postcode_district "SW1A 1AA" = Some "SW1A")
    by (vm_compute; reflexivity).
  split; [exact H |].
  exact (extract_postcode_district_prefix "SW1A 1AA" "SW1A" H).
Defined.

Lemma NoDup_fmap_elem_inj {A B} (f : A → B) (l : list A) (x y : A) :
  NoDup (f <$> l) → x ∈ l → y ∈ l → f x = f y → x = y.
Proof.
  induction l as [|z l IH]; intros Hnd Hx Hy Hf.
  - by apply elem_of_nil in Hx.
  - rewrite fmap_cons in Hnd. apply NoDup_cons in Hnd as [Hz Hnd].
    apply elem_of_cons in Hx as [-> | Hx]; apply elem_of_cons in Hy as [-> | Hy].
    + done.
    + destruct Hz. rewrite Hf. by apply list_elem_of_fmap_2.
    + destruct Hz. rewrite <- Hf. by apply list_elem_of_fmap_2.
    + by apply IH.
Qed.

Section CleanData.

Variable to_datetime_coerce : list (option string) → string → Pandas.datetime.

(** The rows of the result, read off the steps of [clean_data]. *)
Lemma clean_data_elem (df : list raw_row) (r : row) :
  r ∈ clean_data to_datetime_coerce df ↔
    ∃ r0, r0 ∈ drop_duplicates raw_transaction_id df
          ∧ has_essentials
              (convert_date to_datetime_coerce (raw_date_of_transfer <$>
                 drop_duplicates raw_transaction_id df) r0) = true
          ∧ price_in_range
              (convert_date to_datetime_coerce (raw_date_of_transfer <$>
                 drop_duplicates raw_transaction_id df) r0) = true
          ∧ r = derive
                  (convert_date to_datetime_coerce (raw_date_of_transfer <$>
                     drop_duplicates raw_transaction_id df) r0).
Proof.
  unfold clean_data. rewrite list_elem_of_fmap. split.
  - intros (r1 & -> & [Hp [He (r0 & -> & Hr0)%list_elem_of_fmap
                        ]%list_elem_of_filter]%list_elem_of_filter).
    exists r0. by rewrite <- !Is_true_true.
  - intros (r0 & Hr0 & He & Hp & ->). eexists. split; [done |].
    apply list_elem_of_filter. split; [by apply Is_true_true |].
    apply list_elem_of_filter. split; [by apply Is_true_true |].
    by apply list_elem_of_fmap_2.
Qed.

(** X13. [clean_data] never alters the cells it keeps: every row of the
    result stems from a row of the input with the same transaction id,
    price, postcode, property type and untouched columns, its district being
    that row's district upper-cased and stripped; and the rows come in the
    order of the input. *)
Theorem clean_data_provenance (df : list raw_row) :
  (∀ r, r ∈ clean_data to_datetime_coerce df →
     ∃ r0, r0 ∈ df
           ∧ transaction_id r = raw_transaction_id r0
           ∧ price r = raw_price r0
           ∧ postcode r = raw_postcode r0
           ∧ property_type r = raw_property_type r0
           ∧ other r = raw_other r0
           ∧ district r = (λ d, strip (upper d)) <$> raw_district r0)
  ∧ transaction_id <$> clean_data to_datetime_coerce df
      `sublist_of` raw_transaction_id <$> df.
Proof.
  split.
  - intros r (r0 & Hr0 & _ & _ & ->)%clean_data_elem. exists r0.
    split; [| simpl; repeat split; by destruct (raw_district r0)].
    eapply elem_of_sublist; [done |].
    apply (drop_duplicates_go_sublist raw_transaction_id).
  - etrans; [apply clean_data_ids |].
    apply fmap_sublist, (drop_duplicates_go_sublist raw_transaction_id).
Qed.

(** X14. Duplicates are resolved before the rows are checked: when the
    first row of a transaction id misses its price, postcode or district,
    or has a price outside the accepted range, no row with that id reaches
    the result, even if a later row with the same id is complete. *)
Theorem first_row_decides (l1 l2 : list raw_row) (r0 : raw_row) :
  raw_transaction_id r0 ∉ raw_transaction_id <$> l1 →
  (raw_price r0 = None ∨ raw_postcode r0 = None ∨ raw_district r0 = None
   ∨ ∃ p, raw_price r0 = Some p ∧ ¬ (10000 ≤ p ≤ 50000000)%Z) →
  ∀ r, r ∈ clean_data to_datetime_coerce (l1 ++ r0 :: l2)%list →
       transaction_id r ≠ raw_transaction_id r0.
Proof.
  intros Hfirst Hbad r (r1 & Hr1 & He & Hp & ->)%clean_data_elem Hid.
  simpl in Hid.
  assert (r0 ∈ drop_duplicates raw_transaction_id (l1 ++ r0 :: l2)%list) as Hr0.
  { apply (drop_duplicates_go_first raw_transaction_id); [| done].
    apply not_elem_of_nil. }
  assert (r1 = r0) as ->.
  { apply (NoDup_fmap_elem_inj raw_transaction_id
             (drop_duplicates raw_transaction_id (l1 ++ r0 :: l2)%list));
      try done.
    apply drop_duplicates_NoDup. }
  unfold has_essentials in He. unfold price_in_range in Hp. simpl in He, Hp.
  destruct Hbad as [Hb | [Hb | [Hb | (p & Hb & Hrange)]]]; rewrite Hb in *;
    try done.
  - by rewrite !andb_false_r in He.
  - by rewrite !andb_false_r in He.
  - apply andb_prop in Hp as [H1%Z.leb_le H2%Z.leb_le]. lia.
Qed.

(** X15. In the result every district is in its normal form: upper-casing
    or stripping it again changes nothing. *)
Theorem clean_data_district_normal (df : list raw_row) (r : row) :
  r ∈ clean_data to_datetime_coerce df →
  ∃ d, district r = Some d ∧ upper d = d ∧ strip d = d.
Proof.
  intros (r0 & _ & He & _ & ->)%clean_data_elem.
  unfold has_essentials in He. simpl in He.
  apply andb_prop in He as [_ Hd%bool_decide_eq_true].
  destruct Hd as [d Hd]. simpl. rewrite Hd. simpl.
  exists (strip (upper d)). split; [done |]. split.
  - by rewrite upper_strip, upper_idemp.
  - apply strip_idemp.
Qed.

(** X17. The derived columns of the result are never null: the year and
    the month are those of the date of transfer, and the quarter, the
    year-month label and the price band are filled in. *)
Theorem clean_data_derived_filled (df : list raw_row) (r : row) :
  r ∈ clean_data to_datetime_coerce df →
  ∃ d, date_of_transfer r = Pandas.Timestamp d
       ∧ year r = Some (Pandas.year d)
       ∧ month r = Some (Pandas.month d)
       ∧ quarter r = Some ((Pandas.month d - 1) `div` 3 + 1)%N
       ∧ is_Some (year_month r)
       ∧ is_Some (price_band r).
Proof.
  intros (r0 & _ & He & Hp & ->)%clean_data_elem.
  unfold has_essentials in He. unfold price_in_range in Hp.
  apply andb_prop in He as [He _]. apply andb_prop in He as [He _].
  apply andb_prop in He as [_ Hdate%bool_decide_eq_true].
  simpl in *.
  destruct (match raw_date_of_transfer r0 with
            | Some s => _
            | None => Pandas.NaT
            end) as [d |] eqn:Hd; [| done].
  exists d. simpl. repeat split; try done; try by eexists.
  destruct (raw_price r0) as [p |]; [| done]. simpl.
  apply andb_prop in Hp as [H1%Z.leb_le H2%Z.leb_le].
  unfold cut_price_band.
  rewrite (proj2 (Z.leb_gt p 0)) by lia.
  repeat (destruct (_ <=? _)%Z; [by eexists |]). by eexists.
Qed.

(** X18. When the month of the date of transfer is a calendar month, the
    quarter of a result row is between 1 and 4 and is the quarter that month
    lies in. *)
Theorem clean_data_quarter (df : list raw_row) (r : row) (d : Pandas.date) :
  r ∈ clean_data to_datetime_coerce df →
  date_of_transfer r = Pandas.Timestamp d →
  (1 ≤ Pandas.month d ≤ 12)%N →
  ∃ q, quarter r = Some q ∧ (1 ≤ q ≤ 4)%N
       ∧ (3 * q - 2 ≤ Pandas.month d ≤ 3 * q)%N.
Proof.
  intros (r0 & _ & _ & _ & ->)%clean_data_elem Hd Hm. simpl in *.
  rewrite Hd. simpl. eexists. split; [done |].
  assert (Pandas.month d = 1 ∨ Pandas.month d = 2 ∨ Pandas.month d = 3
          ∨ Pandas.month d = 4 ∨ Pandas.month d = 5 ∨ Pandas.month d = 6
          ∨ Pandas.month d = 7 ∨ Pandas.month d = 8 ∨ Pandas.month d = 9
          ∨ Pandas.month d = 10 ∨ Pandas.month d = 11
          ∨ Pandas.month d = 12)%N as Hcases by lia.
  repeat (destruct Hcases as [-> | Hcases]; [vm_compute; intuition discriminate |]).
  rewrite Hcases. vm_compute; intuition discriminate.
Qed.

End CleanData.

(** The frame of the examples: a duplicate of a complete row, a price
    below the range, a date that does not parse, a missing postcode, and an
    id whose first row has no price while its second row is complete. *)
Lemma first_row_decides_witness :
  let r0 := RawRow (Some "{E5}") None (Some "2023-03-03") (Some "N1 9GU")
              (Some "T") (Some "ISLINGTON") [] in
  let l1 := [ RawRow (Some "{A1}") (Some 450000%Z) (Some "2023-05-02")
                (Some "NW1 8AB") (Some "F") (Some " Camden ") [] ] in
  let l2 := [ RawRow (Some "{E5}") (Some 700000%Z) (Some "2023-03-03")
                (Some "N1 9GU") (Some "T") (Some "ISLINGTON") [] ] in
  (raw_transaction_id r0 ∉ raw_transaction_id <$> l1)
  ∧ raw_price r0 = None
  ∧ (transaction_id <$> clean_data IsoDates.to_datetime_coerce (l1 ++ r0 :: l2)%list)
    = [Some "{A1}"]
  ∧ ∀ r, r ∈ clean_data IsoDates.to_datetime_coerce (l1 ++ r0 :: l2)%list →
         transaction_id r ≠ raw_transaction_id r0.
Proof.
  intros r0 l1 l2.
  assert (H1 : raw_transaction_id r0 ∉ raw_transaction_id <$> l1).
  { intros H. apply list_elem_of_singleton in H. discriminate H. }
  assert (H2 : raw_price r0 = None) by reflexivity.
  split; [exact H1 |]. split; [exact H2 |].
  split; [vm_compute; reflexivity |].
  exact (first_row_decides IsoDates.to_datetime_coerce l1 l2 r0 H1 (or_introl H2)).
Defined.

Lemma clean_data_district_normal_witness :
  let df := [ RawRow (Some "{A1}") (Some 450000%Z) (Some "2023-05-02")
                (Some "NW1 8AB") (Some "F") (Some " Camden ") [] ] in
  ∃ r, clean_data IsoDates.to_datetime_coerce df = [r]
       ∧ district r = Some "CAMDEN"
       ∧ ∃ d, district r = Some d ∧ upper d = d ∧ strip d = d.
Proof.
  intros df.
  assert (Hr : derive (convert_date IsoDates.to_datetime_coerce
                         (raw_date_of_transfer <$> df)
                         (RawRow (Some "{A1}") (Some 450000%Z) (Some "2023-05-02")
                            (Some "NW1 8AB") (Some "F") (Some " Camden ") []))
               ∈ clean_data IsoDates.to_datetime_coerce df)
    by (vm_compute; apply elem_of_cons; by left).
  eexists. split; [vm_compute; reflexivity |]. split; [vm_compute; reflexivity |].
  exact (clean_data_district_normal IsoDates.to_datetime_coerce df _ Hr).
Defined.

Lemma clean_data_derived_filled_witness :
  let df := [ RawRow (Some "{A1}") (Some 450000%Z) (Some "2023-05-02")
                (Some "NW1 8AB") (Some "F") (Some " Camden ") [] ] in
  ∃ r, clean_data IsoDates.to_datetime_coerce df = [r]
       ∧ ∃ d, date_of_transfer r = Pandas.Timestamp d
              ∧ year r = Some (Pandas.year d)
              ∧ month r = Some (Pandas.month d)
              ∧ quarter r = Some ((Pandas.month d - 1) `div` 3 + 1)%N
              ∧ is_Some (year_month r)
              ∧ is_Some (price_band r).
Proof.
  intros df.
  assert (Hr : derive (convert_date IsoDates.to_datetime_coerce
                         (raw_date_of_transfer <$> df)
                         (RawRow (Some "{A1}") (Some 450000%Z) (Some "2023-05-02")
                            (Some "NW1 8AB") (Some "F") (Some " Camden ") []))
               ∈ clean_data IsoDates.to_datetime_coerce df)
    by (vm_compute; apply elem_of_cons; by left).
  eexists. split; [vm_compute; reflexivity |].
  exact (clean_data_derived_filled IsoDates.to_datetime_coerce df _ Hr).
Defined.

Lemma clean_data_quarter_witness :
  let df := [ RawRow (Some "{A1}") (Some 450000%Z) (Some "2023-05-02")
                (Some "NW1 8AB") (Some "F") (Some " Camden ") [] ] in
  ∃ r, clean_data IsoDates.to_datetime_coerce df = [r]
       ∧ quarter r = Some 2%N
       ∧ ∃ q, quarter r = Some q ∧ (1 ≤ q ≤ 4)%N ∧ (3 * q - 2 ≤ 5 ≤ 3 * q)%N.
Proof.
  intros df.
  assert (Hr : derive (convert_date IsoDates.to_datetime_coerce
                         (raw_date_of_transfer <$> df)
                         (RawRow (Some "{A1}") (Some 450000%Z) (Some "2023-05-02")
                            (Some "NW1 8AB") (Some "F") (Some " Camden ") []))
               ∈ clean_data IsoDates.to_datetime_coerce df)
    by (vm_compute; apply elem_of_cons; by left).
  assert (Hm : (1 ≤ Pandas.month (Pandas.Date 2023 5 2) ≤ 12)%N) by (simpl; lia).
  eexists. split; [vm_compute; reflexivity |]. split; [vm_compute; reflexivity |].
  exact (clean_data_quarter IsoDates.to_datetime_coerce df _
           (Pandas.Date 2023 5 2) Hr eq_refl Hm).
Defined.

End HousingMore.

(** ** More on the dashboard *)

Module DashboardMore.
Import Dashboard DashboardFacts DashboardView.

Lemma unique_elem_of {A} `{EqDecision A} (col : list A) (x : A) :
  x ∈ unique col ↔ x ∈ col.
Proof.
  unfold unique, Housing.drop_duplicates. split.
  - intros Hx. eapply elem_of_sublist; [done |].
    apply (HousingMore.drop_duplicates_go_sublist (λ x, x)).
  - intros Hx.
    destruct (HousingMore.drop_duplicates_go_keys (λ x, x) col [] x Hx)
      as [Hs | Hk]; [by apply elem_of_nil in Hs |].
    by rewrite list_fmap_id in Hk.
Qed.

Lemma foldr_min_le (p : Z) (ps : list Z) :
  (foldr Z.min p ps ≤ p)%Z ∧ ∀ x, x ∈ ps → (foldr Z.min p ps ≤ x)%Z.
Proof.
  induction ps as [|y ps [IH1 IH2]]; simpl.
  - split; [lia | intros x Hx; by apply elem_of_nil in Hx].
  - split; [lia |]. intros x [-> | Hx]%elem_of_cons; [lia |].
    specialize (IH2 x Hx). lia.
Qed.

Lemma filter_ext_elem {A} (P Q : A → Prop) `{∀ x, Decision (P x)}
    `{∀ x, Decision (Q x)} (l : list A) :
  (∀ x, x ∈ l → (P x ↔ Q x)) → filter P l = filter Q l.
Proof.
  induction l as [|x l IH]; intros Hpq; [done |].
  rewrite !filter_cons.
  assert (P x ↔ Q x) as Hx by (apply Hpq; by apply elem_of_cons; left).
  rewrite IH by (intros y Hy; apply Hpq; by apply elem_of_cons; right).
  destruct (decide (P x)), (decide (Q x)); tauto || done.
Qed.

Lemma filter_sublist_mono {A} (P Q : A → Prop) `{∀ x, Decision (P x)}
    `{∀ x, Decision (Q x)} (l : list A) :
  (∀ x, P x → Q x) → filter P l `sublist_of` filter Q l.
Proof.
  intros Hpq. induction l as [|x l IH]; [done |].
  rewrite !filter_cons.
  destruct (decide (P x)) as [Hp | Hp], (decide (Q x)) as [Hq | Hq].
  - by apply sublist_skip.
  - destruct Hq. by apply Hpq.
  - by apply sublist_cons.
  - done.
Qed.

Section Defaults.

Variable quantile_99 : list Z → Z.

(** X19. With the widgets at their default values the year, borough and
    property-type filters let every row through and the lower price bound
    is the minimum, so the table shown is exactly the rows whose price is at
    most the upper bound of the slider, the 99th percentile: the rows above
    it are hidden until the user widens the range. *)
Theorem default_view (df : list row) (sel : selection) :
  default_selection quantile_99 df = Py.Returns sel →
  filtered_df df sel
  = filter (λ r, (price r ≤ quantile_99 (price <$> df))%Z) df.
Proof.
  unfold default_selection.
  destruct (min_price (price <$> df)) as [lo | e] eqn:Hlo; simpl; [| done].
  intros [= <-].
  unfold filtered_df. apply filter_ext_elem. intros r Hr.
  rewrite Is_true_true, mask_spec. simpl.
  assert (lo ≤ price r)%Z as Hmin.
  { unfold min_price in Hlo.
    destruct df as [|r1 df']; [done |]. simpl in Hlo. injection Hlo as <-.
    destruct (foldr_min_le (price r1) (price <$> df')) as [H1 H2].
    apply elem_of_cons in Hr as [-> | Hr]; [done |].
    apply H2. by apply list_elem_of_fmap_2. }
  split; [tauto |]. intros Hhi. repeat split; try done.
  - rewrite merge_sort_Permutation. apply unique_elem_of.
    by apply list_elem_of_fmap_2.
  - rewrite merge_sort_Permutation. apply unique_elem_of.
    by apply list_elem_of_fmap_2.
  - apply unique_elem_of. by apply list_elem_of_fmap_2.
Qed.

End Defaults.

(** X20. Narrowing the selection can only remove rows: when every list of
    selected values is included in the other one and the price range lies
    within the other one, the filtered table is a sub-list of the other
    filtered table. *)
Theorem filtered_df_narrowing (df : list row) (sel sel' : selection) :
  selected_years sel ⊆ selected_years sel' →
  selected_boroughs sel ⊆ selected_boroughs sel' →
  selected_types sel ⊆ selected_types sel' →
  (fst (price_range sel') ≤ fst (price_range sel))%Z →
  (snd (price_range sel) ≤ snd (price_range sel'))%Z →
  filtered_df df sel `sublist_of` filtered_df df sel'.
Proof.
  intros Hy Hb Ht Hlo Hhi. unfold filtered_df.
  apply filter_sublist_mono. intros r.
  rewrite !Is_true_true, !mask_spec. intros (H1 & H2 & H3 & H4).
  repeat split; [by apply Hy | by apply Hb | by apply Ht | lia | lia].
Qed.

(** X21. A multiselect with nothing selected, or a price range whose upper
    bound is below its lower bound, empties the table whatever the other
    filters are. *)
Theorem filtered_df_empty_selection (df : list row) (sel : selection) :
  (selected_years sel = [] ∨ selected_boroughs sel = []
   ∨ selected_types sel = []
   ∨ (snd (price_range sel) < fst (price_range sel))%Z) →
  filtered_df df sel = [].
Proof.
  intros Hempty. unfold filtered_df.
  destruct (filter (λ r, mask sel r) df) as [|r rest] eqn:Hf; [done |].
  exfalso.
  assert (r ∈ filter (λ r, mask sel r) df) as Hr
    by (rewrite Hf; by apply elem_of_cons; left).
  apply list_elem_of_filter in Hr as [Hm%Is_true_true%mask_spec _].
  destruct Hm as (H1 & H2 & H3 & H4).
  destruct Hempty as [He | [He | [He | He]]].
  - rewrite He in H1. by apply elem_of_nil in H1.
  - rewrite He in H2. by apply elem_of_nil in H2.
  - rewrite He in H3. by apply elem_of_nil in H3.
  - lia.
Qed.

Section Display.

Variable sort_values : list display_row → list display_row.

(** X22. Given that [sort_values] returns its rows ordered by falling
    price, the transaction table shows [show_rows] rows, or all of them when
    there are fewer, and no row left out has a higher price than a row
    shown. *)
Theorem display_df_top (filtered : list row) (show_rows : nat) :
  (∀ l, sort_values l ≡ₚ l) →
  (∀ l, StronglySorted price_desc (sort_values l)) →
  length (display_df sort_values filtered show_rows)
  = min show_rows (length filtered)
  ∧ (display_df sort_values filtered show_rows
     ++ drop show_rows (sort_values (to_display <$> filtered)))%list
    ≡ₚ to_display <$> filtered
  ∧ ∀ a b, a ∈ display_df sort_values filtered show_rows →
           b ∈ drop show_rows (sort_values (to_display <$> filtered)) →
           (Price b ≤ Price a)%Z.
Proof.
  intros Hperm Hsorted. unfold display_df. split; [| split].
  - rewrite length_take, (Permutation_length (Hperm _)), length_fmap. done.
  - by rewrite take_drop.
  - intros a b Ha Hb.
    pose proof (Hsorted (to_display <$> filtered)) as Hs.
    rewrite <- (take_drop show_rows (sort_values (to_display <$> filtered))) in Hs.
    by apply (StronglySorted_app_1_elem_of _ _ _ a b Hs).
Qed.

End Display.

Lemma default_view_witness :
  let r1 := Row (Pandas.Date 2023 5 2) "CAMDEN" "NW1 8AB" (Some "Flat/Maisonette") 450000 2023 in
  let r2 := Row (Pandas.Date 2022 1 9) "BARNET" "EN5 1AA" (Some "Detached") 900000 2022 in
  let r3 := Row (Pandas.Date 2023 8 30) "CAMDEN" "NW3 2QG" None 1200000 2023 in
  let sel := Selection [2022; 2023]%N ["BARNET"; "CAMDEN"]
               [Some "Flat/Maisonette"; Some "Detached"; None]
               (450000, 1000000)%Z in
  default_selection (λ _, 1000000%Z) [r1; r2; r3] = Py.Returns sel
  ∧ filtered_df [r1; r2; r3] sel = [r1; r2].
Proof.
  intros r1 r2 r3 sel.
  assert (H : default_selection (λ _, 1000000%Z) [r1; r2; r3] = Py.Returns sel)
    by (vm_compute; reflexivity).
  split; [exact H |].
  eapply eq_trans; [exact (default_view (λ _, 1000000%Z) [r1; r2; r3] sel H) |].
  vm_compute; reflexivity.
Defined.

Lemma filtered_df_narrowing_witness :
  let r1 := Row (Pandas.Date 2023 5 2) "CAMDEN" "NW1 8AB" (Some "Flat/Maisonette") 450000 2023 in
  let r2 := Row (Pandas.Date 2022 1 9) "BARNET" "EN5 1AA" (Some "Detached") 900000 2022 in
  let sel := Selection [2023]%N ["CAMDEN"] [Some "Flat/Maisonette"]
               (400000, 500000)%Z in
  let sel' := Selection [2022; 2023]%N ["BARNET"; "CAMDEN"]
                [Some "Flat/Maisonette"; Some "Detached"] (0, 1000000)%Z in
  filtered_df [r1; r2] sel = [r1]
  ∧ filtered_df [r1; r2] sel' = [r1; r2]
  ∧ filtered_df [r1; r2] sel `sublist_of` filtered_df [r1; r2] sel'.
Proof.
  intros r1 r2 sel sel'.
  assert (H1 : selected_years sel ⊆ selected_years sel')
    by (apply (bool_decide_unpack _); by vm_compute).
  assert (H2 : selected_boroughs sel ⊆ selected_boroughs sel')
    by (apply (bool_decide_unpack _); by vm_compute).
  assert (H3 : selected_types sel ⊆ selected_types sel')
    by (apply (bool_decide_unpack _); by vm_compute).
  assert (H4 : (fst (price_range sel') ≤ fst (price_range sel))%Z)
    by (simpl; lia).
  assert (H5 : (snd (price_range sel) ≤ snd (price_range sel'))%Z)
    by (simpl; lia).
  split; [vm_compute; reflexivity |]. split; [vm_compute; reflexivity |].
  exact (filtered_df_narrowing [r1; r2] sel sel' H1 H2 H3 H4 H5).
Defined.

Lemma filtered_df_empty_selection_witness :
  let r1 := Row (Pandas.Date 2023 5 2) "CAMDEN" "NW1 8AB" (Some "Flat/Maisonette") 450000 2023 in
  let sel := Selection [] ["CAMDEN"] [Some "Flat/Maisonette"] (0, 1000000)%Z in
  selected_years sel = [] ∧ filtered_df [r1] sel = [].
Proof.
  intros r1 sel.
  assert (H : selected_years sel = []) by reflexivity.
  split; [exact H |].
  exact (filtered_df_empty_selection [r1] sel (or_introl H)).
Defined.

#[local] Instance price_desc_trans : Transitive price_desc.
Proof. intros a b c. unfold price_desc. lia. Qed.

#[local] Instance price_desc_total : Total price_desc.
Proof. intros a b. unfold price_desc. lia. Qed.

Lemma display_df_top_witness :
  let r1 := Row (Pandas.Date 2023 5 2) "CAMDEN" "NW1 8AB" (Some "Flat/Maisonette") 450000 2023 in
  let r2 := Row (Pandas.Date 2022 1 9) "BARNET" "EN5 1AA" (Some "Detached") 900000 2022 in
  let r3 := Row (Pandas.Date 2023 8 30) "CAMDEN" "NW3 2QG" None 1200000 2023 in
  display_df (merge_sort price_desc) [r1; r2; r3] 2
  = [to_display r3; to_display r2]
  ∧ length (display_df (merge_sort price_desc) [r1; r2; r3] 2)
    = min 2 (length [r1; r2; r3]).
Proof.
  intros r1 r2 r3. split; [vm_compute; reflexivity |].
  exact (proj1 (display_df_top (merge_sort price_desc) [r1; r2; r3] 2
                  (merge_sort_Permutation price_desc)
                  (StronglySorted_merge_sort price_desc))).
Defined.

End DashboardMore.

(** ** From the ONS files to the master table *)

Module MasterTableFacts.
Import MasterTable.

Section Tables.

Context {frame : Type} (len : frame → nat).
Variable path_exists : string → bool.
Variable clean_ons_timeseries : string → string → option frame.
Variable merge_left : frame → frame → string → frame.
Variable merge_categories : frame → frame → frame.
Variable empty_frame : frame.

(** Only the file of a column can put that column into [processed_dfs]. *)
Lemma get_process_files_other (col : string) (files : list (string * string)) :
  col ∉ snd <$> files →
  get col (process_files len path_exists clean_ons_timeseries files) = None.
Proof.
  induction files as [|[filename col_name] files IH]; intros Hcol; simpl;
    [done |].
  rewrite fmap_cons in Hcol. apply not_elem_of_cons in Hcol as [Hne Hcol].
  destruct (path_exists (raw_file filename)); [| by apply IH].
  destruct (clean_ons_timeseries (raw_file filename) col_name) as [df |];
    [| by apply IH].
  case_bool_decide; [| by apply IH]. simpl.
  rewrite decide_False by done. by apply IH.
Qed.

(** X23. Without a usable CPI annual series nothing of the ONS files is
    used: when cpi_annual_rate.csv is missing, cannot be cleaned or gives no
    row, [merge_cpi_data] returns [None] whatever the other four files
    hold, and the master table is the generated category table (an empty
    frame when there is none). *)
Theorem no_cpi_annual_no_ons_data (generated_data : list (string * frame)) :
  (path_exists (raw_file "cpi_annual_rate.csv") = false
   ∨ clean_ons_timeseries (raw_file "cpi_annual_rate.csv") "cpi_annual" = None
   ∨ ∃ df, clean_ons_timeseries (raw_file "cpi_annual_rate.csv") "cpi_annual"
           = Some df ∧ len df = 0%nat) →
  merge_cpi_data merge_left
    (process_ons_files len path_exists clean_ons_timeseries) = None
  ∧ create_master_cpi_table len merge_categories empty_frame
      (merge_cpi_data merge_left
         (process_ons_files len path_exists clean_ons_timeseries))
      generated_data
    = default empty_frame (get "cpi_categories" generated_data).
Proof.
  intros Hbad.
  assert (get "cpi_annual"
            (process_ons_files len path_exists clean_ons_timeseries) = None)
    as Hget.
  { unfold process_ons_files, ons_files.
    cbn [process_files].
    assert (get "cpi_annual"
              (process_files len path_exists clean_ons_timeseries
                 [("cpih_annual_rate.csv", "cpih_annual");
                  ("cpi_monthly_rate.csv", "cpi_monthly");
                  ("food_inflation.csv", "food_inflation");
                  ("housing_energy_inflation.csv", "housing_energy_inflation")])
            = None) as Hrest.
    { apply get_process_files_other. apply (bool_decide_unpack _). by vm_compute. }
    destruct Hbad as [-> | [-> | (df & -> & Hlen)]].
    - exact Hrest.
    - destruct (path_exists _); exact Hrest.
    - destruct (path_exists _); [| exact Hrest].
      rewrite bool_decide_eq_false_2 by lia. exact Hrest. }
  unfold merge_cpi_data. rewrite Hget. done.
Qed.

End Tables.

Lemma no_cpi_annual_no_ons_data_witness :
  let path_exists := λ p : string,
    bool_decide (p ≠ raw_file "cpi_annual_rate.csv") in
  let clean := λ (_ col : string), Some [col] in
  path_exists (raw_file "cpi_annual_rate.csv") = false
  ∧ process_ons_files length path_exists clean
    = [("cpih_annual", ["cpih_annual"]); ("cpi_monthly", ["cpi_monthly"]);
       ("food_inflation", ["food_inflation"]);
       ("housing_energy_inflation", ["housing_energy_inflation"])]
  ∧ create_master_cpi_table length (λ m g, m ++ g)%list []
      (merge_cpi_data (λ m d _, m ++ d)%list
         (process_ons_files length path_exists clean))
      [("cpi_categories", ["generated"])]
    = ["generated"].
Proof.
  intros path_exists clean.
  assert (H : path_exists (raw_file "cpi_annual_rate.csv") = false)
    by (vm_compute; reflexivity).
  split; [exact H |]. split; [vm_compute; reflexivity |].
  exact (proj2 (no_cpi_annual_no_ons_data length path_exists clean
                  (λ m d _, m ++ d)%list (λ m g, m ++ g)%list []
                  [("cpi_categories", ["generated"])] (or_introl H))).
Defined.

End MasterTableFacts.
